(** * RAG PDF chatbot: answer synthesis, query orchestration, conversation store

    A shallow embedding of [src/llm_client.py] (class [GroqClient]),
    [src/rag_system.py] (class [RAGSystem]) and [saver.py] (class
    [RAGSystemSaver]), with the properties of the query pipeline and of
    the SQLite conversation store stated over it.

    Conventions of the embedding:
    - a Python [float] is an exact rational ([Q]); rounding of binary
      floating point is outside the model;
    - a Python [int] is a [Z];
    - a [str] is a [string], one [ascii] per character;
    - a method that mutates [self] returns the new object next to its result;
    - effects on the outside world (completion service, files, clock) are
      threaded through a [World]; a raised exception is an [Outcome];
    - [print] calls have no effect on any result, and are left out. *)

From Stdlib Require Import ZArith QArith Qround String Ascii List Lia Permutation.
From stdpp Require Import base gmap strings list pretty.

Local Open Scope Z_scope.

(** ** Python values and runtime helpers *)

(** The values chunk metadata holds for [source_file] and [page]. *)
Inductive PyVal : Type :=
  | PyNone
  | PyInt (z : Z)
  | PyStr (s : string).

(** [str(v)], as an f-string renders it. *)
Definition py_str (v : PyVal) : string :=
  match v with
  | PyNone => "None"
  | PyInt z => pretty z
  | PyStr s => s
  end.

(** The newline character. *)
Definition nl : string := String (ascii_of_nat 10) EmptyString.

(** Round to the nearest integer, ties to the even one. *)
Definition round_half_even (q : Q) : Z :=
  let f := Qfloor q in
  let r := (q - inject_Z f)%Q in
  match (r ?= 1 # 2)%Q with
  | Lt => f
  | Gt => f + 1
  | Eq => if Z.even f then f else f + 1
  end.

(** [f"{x:.1%}"]: the value times 100 with one decimal and a percent sign. *)
Definition format_percent (x : Q) : string :=
  let n := round_half_even (x * 1000)%Q in
  let a := Z.abs n in
  (if Qlt_le_dec x 0 then "-" else "") +:+
  pretty (a / 10) +:+ "." +:+ pretty (a mod 10) +:+ "%".

(** [round(x, ndigits)] for a non-negative [ndigits]. *)
Definition py_round (x : Q) (ndigits : nat) : Q :=
  let scale := 10 ^ Z.of_nat ndigits in
  (inject_Z (round_half_even (x * inject_Z scale)) / inject_Z scale)%Q.

(** [enumerate(l, start)]. *)
Fixpoint enumerate {A : Type} (start : Z) (l : list A) : list (Z * A) :=
  match l with
  | [] => []
  | x :: r => (start, x) :: enumerate (start + 1) r
  end.

(** [sum(l)] over floats: the running total starts at 0. *)
Definition py_sum (l : list Q) : Q := fold_left Qplus l 0%Q.

(** [len(l)]. *)
Definition len {A : Type} (l : list A) : Z := Z.of_nat (length l).

(** [os.path.join(a, b)] on a POSIX system. *)
Definition ends_with_slash (a : string) : bool :=
  match rev (list_ascii_of_string a) with
  | c :: _ => bool_decide (c = "/"%char)
  | [] => false
  end.

Definition path_join (a b : string) : string :=
  match b with
  | String c _ =>
      if bool_decide (c = "/"%char) then b
      else if bool_decide (a = "") || ends_with_slash a then a +:+ b
      else a +:+ "/" +:+ b
  | EmptyString =>
      if bool_decide (a = "") || ends_with_slash a then a else a +:+ "/"
  end.

(** ** Exceptions, the outside world and the effect monad *)

Inductive Exn : Type :=
  | FileNotFoundError (path : string)
  | DatabaseError (path : string)
  | JSONDecodeError (path : string)
  | Exception (msg : string).

(** [str(e)]. *)
Definition exn_str (e : Exn) : string :=
  match e with
  | FileNotFoundError p => "[Errno 2] No such file or directory: '" +:+ p +:+ "'"
  | DatabaseError _ => "file is not a database"
  | JSONDecodeError _ => "Expecting value: line 1 column 1 (char 0)"
  | Exception m => m
  end.

Inductive Outcome (A : Type) : Type :=
  | Return (a : A)
  | Raise (e : Exn).
Arguments Return {A} a.
Arguments Raise {A} e.

(** One call of [client.chat.completions.create]. *)
Record CompletionRequest : Type := {
  req_model : string;
  req_prompt : string;
  req_temperature : Q;
  req_max_tokens : Z
}.

(** ** Data model *)

(** A retrieved chunk: [{'content', 'metadata', 'similarity_score'}]; the
    score may be missing from the dictionary. *)
Record Context : Type := {
  content : string;
  metadata : gmap string PyVal;
  similarity_score : option Q
}.

(** An entry of a response's ['sources']: [{'id', 'file', 'page', 'similarity'}]. *)
Record Source : Type := {
  src_id : Z;
  file : PyVal;
  page : PyVal;
  similarity : Q
}.

(** The values of a response dictionary. *)
Inductive RVal : Type :=
  | VStr (s : string)
  | VInt (z : Z)
  | VFloat (q : Q)
  | VSources (l : list Source)
  | VContexts (l : list Context).

(** A response is a dictionary: which keys it has depends on the path taken. *)
Abbreviation Response := (gmap string RVal).

(** An entry of [conversation_history]:
    [{'question', 'answer', 'sources', 'num_contexts'}]. *)
Record LogEntry : Type := {
  question : string;
  answer : option string;
  sources : list Source;
  num_contexts : Z
}.

(** *** The SQLite schema of [_init_sqlite_db] *)

(** A row of [conversations]. [created_at] is the timestamp, ordered as
    SQLite orders its text form. *)
Record ConversationRow : Type := {
  conv_id : Z;
  created_at : Z;
  conv_question : string;
  conv_answer : option string;
  conv_num_contexts : Z;
  avg_similarity : Q;
  model_used : string;
  session_id : string
}.

(** A row of [sources]; the columns [source_file] and [page] are declared
    [TEXT], [similarity] is [REAL]. *)
Record SourceRow : Type := {
  source_row_id : Z;
  conversation_id : Z;
  source_file : option string;
  source_page : option string;
  source_similarity : Q
}.

(** A database file: the two tables in rowid order and, for each, the
    largest rowid ever handed out (the [AUTOINCREMENT] counter). *)
Record Database : Type := {
  conversations : list ConversationRow;
  source_rows : list SourceRow;
  conversations_seq : Z;
  sources_seq : Z
}.

(** The snapshot of [save_config_json]. *)
Record Config : Type := {
  cfg_name : string;
  cfg_created_at : string;
  cfg_vs_path : string;
  cfg_vs_collection_name : string;
  cfg_vs_total_documents : Z;
  cfg_embedding_model_name : string;
  cfg_embedding_dim : Z;
  cfg_llm_provider : string;
  cfg_llm_default_model : string
}.

Inductive File : Type :=
  | DbFile (db : Database)
  | JsonFile (cfg : Config).

(** A reading of the clock: the instant and its ISO rendering. *)
Record Instant : Type := {
  epoch : Z;
  isoformat : string
}.

(** The world outside the program: the requests the completion service has
    received, the file system, and the clock with the number of times it
    has been read. *)
Record World : Type := {
  completion_calls : list CompletionRequest;
  files : gmap string File;
  clock : nat -> Instant;
  clock_reads : nat
}.

Definition M (A : Type) : Type := World -> Outcome A * World.

Definition ret {A : Type} (a : A) : M A := fun w => (Return a, w).

Definition raise {A : Type} (e : Exn) : M A := fun w => (Raise e, w).

Definition bind {A B : Type} (m : M A) (k : A -> M B) : M B :=
  fun w =>
    match m w with
    | (Return a, w') => k a w'
    | (Raise e, w') => (Raise e, w')
    end.

(** [try: body except Exception as e: handler(e)]. *)
Definition try_except {A : Type} (body : M A) (handler : Exn -> M A) : M A :=
  fun w =>
    match body w with
    | (Return a, w') => (Return a, w')
    | (Raise e, w') => handler e w'
    end.

Notation "'let!' x ':=' m 'in' k" := (bind m (fun x => k))
  (at level 10, x name, m at level 100, k at level 200).

(** Read the clock once. *)
Definition now : M Instant :=
  fun w =>
    (Return (clock w (clock_reads w)),
     {| completion_calls := completion_calls w;
        files := files w;
        clock := clock w;
        clock_reads := S (clock_reads w) |}).

Definition read_file (path : string) : M (option File) :=
  fun w => (Return (files w !! path), w).

Definition write_file (path : string) (f : File) : M unit :=
  fun w =>
    (Return tt,
     {| completion_calls := completion_calls w;
        files := <[path := f]> (files w);
        clock := clock w;
        clock_reads := clock_reads w |}).

(** ** [llm_client.py]: the answer synthesizer *)

(** The client object: the key and the completion service behind it, which
    answers or raises, possibly depending on the requests made so far. *)
Record GroqClient : Type := {
  api_key : string;
  client : list CompletionRequest -> CompletionRequest -> Outcome string
}.

(** [self.client.chat.completions.create(...)] followed by
    [response.choices[0].message.content]. *)
Definition chat_completions_create (self : GroqClient) (req : CompletionRequest)
  : M string :=
  fun w =>
    (client self (completion_calls w) req,
     {| completion_calls := completion_calls w ++ [req];
        files := files w;
        clock := clock w;
        clock_reads := clock_reads w |}).

(** [ctx['metadata'].get(key, default)]. *)
Definition metadata_get (ctx : Context) (key : string) (default : PyVal) : PyVal :=
  match metadata ctx !! key with
  | Some v => v
  | None => default
  end.

(** [ctx.get('similarity_score', 0.0)]. *)
Definition similarity_get (ctx : Context) : Q :=
  match similarity_score ctx with
  | Some q => q
  | None => 0%Q
  end.

(** One element of [formatted_contexts]. *)
Definition format_context (i : Z) (ctx : Context) : string :=
  "[" +:+ pretty i +:+ "] (Source: "
  +:+ py_str (metadata_get ctx "source_file" (PyStr "Unknown"))
  +:+ ", Page: " +:+ py_str (metadata_get ctx "page" (PyStr "N/A"))
  +:+ ", Relevance: " +:+ format_percent (similarity_get ctx) +:+ ")"
  +:+ nl +:+ content ctx.

Definition formatted_contexts (contexts : list Context) : list string :=
  map (fun p => format_context (fst p) (snd p)) (enumerate 1 contexts).

Definition context_text (contexts : list Context) : string :=
  String.concat (nl +:+ nl) (formatted_contexts contexts).

Definition prompt_header : string :=
  "You are a helpful AI assistant. Answer the user's question based ONLY on the provided context from PDF documents."
  +:+ nl +:+ nl
  +:+ "IMPORTANT INSTRUCTIONS:" +:+ nl
  +:+ "1. Only use information from the context below" +:+ nl
  +:+ "2. Cite sources using [1], [2], [3] format after relevant statements" +:+ nl
  +:+ "3. If the context doesn't contain enough information, clearly state that" +:+ nl
  +:+ "4. Be concise but comprehensive" +:+ nl
  +:+ "5. If you're uncertain, express appropriate confidence levels" +:+ nl
  +:+ nl
  +:+ "CONTEXT:" +:+ nl.

Definition prompt_footer (query : string) : string :=
  nl +:+ nl +:+ "QUESTION: " +:+ query +:+ nl +:+ nl +:+ "ANSWER (with citations):".

Definition build_prompt (query : string) (contexts : list Context) : string :=
  prompt_header +:+ context_text contexts +:+ prompt_footer query.

(** The list comprehension that builds ['sources']. *)
Definition extract_sources (contexts : list Context) : list Source :=
  map (fun p =>
         {| src_id := fst p + 1;
            file := metadata_get (snd p) "source_file" (PyStr "Unknown");
            page := metadata_get (snd p) "page" (PyStr "N/A");
            similarity := similarity_get (snd p) |})
      (enumerate 0 contexts).

(** [sum(s['similarity'] for s in sources) / len(sources) if sources else 0.0]. *)
Definition average_similarity (srcs : list Source) : Q :=
  match srcs with
  | [] => 0%Q
  | _ :: _ => (py_sum (map similarity srcs) / inject_Z (len srcs))%Q
  end.

Definition no_context_answer : string :=
  "I couldn't find any relevant information in the documents to answer your question.".

Definition default_model : string := "llama-3.3-70b-versatile".

Definition generate_response (self : GroqClient) (query : string)
    (contexts : list Context) (model : string) (temperature : Q)
    (max_tokens : Z) : M Response :=
  match contexts with
  | [] =>
      ret (<["answer" := VStr no_context_answer]>
          (<["sources" := VSources []]>
          (<["model" := VStr model]>
          (<["num_contexts_used" := VInt 0]>
          (<["avg_similarity" := VFloat 0%Q]> ∅)))))
  | _ :: _ =>
      let prompt := build_prompt query contexts in
      try_except
        (let! answer := chat_completions_create self
             {| req_model := model;
                req_prompt := prompt;
                req_temperature := temperature;
                req_max_tokens := max_tokens |} in
         let sources := extract_sources contexts in
         let avg_similarity := average_similarity sources in
         ret (<["answer" := VStr answer]>
             (<["sources" := VSources sources]>
             (<["model" := VStr model]>
             (<["num_contexts_used" := VInt (len contexts)]>
             (<["avg_similarity" := VFloat avg_similarity]> ∅))))))
        (fun e =>
           ret (<["answer" := VStr ("Error generating response: " +:+ exn_str e)]>
               (<["sources" := VSources []]>
               (<["model" := VStr model]>
               (<["num_contexts_used" := VInt 0]>
               (<["avg_similarity" := VFloat 0%Q]> ∅))))))
  end.

(** ** [rag_system.py]: the query orchestrator *)

Record VectorStore : Type := {
  persist_directory : string;
  collection_name : string;
  collection_count : Z
}.

Record EmbeddingManager : Type := {
  model_name : string;
  embedding_dimension : Z
}.

(** The retriever is a collaborator: [retrieve(question, top_k,
    score_threshold)] returns the chunks or raises. *)
Record RAGRetriever : Type := {
  retrieve : string -> Z -> Q -> Outcome (list Context)
}.

Record RAGSystem : Type := {
  vector_store : VectorStore;
  embedding_manager : EmbeddingManager;
  llm_client : GroqClient;
  retriever : RAGRetriever;
  conversation_history : list LogEntry
}.

(** [**llm_kwargs]: the generation parameters the caller overrides. *)
Record LlmKwargs : Type := {
  kw_model : option string;
  kw_temperature : option Q;
  kw_max_tokens : option Z
}.

Definition no_kwargs : LlmKwargs :=
  {| kw_model := None; kw_temperature := None; kw_max_tokens := None |}.

Definition lift {A : Type} (o : Outcome A) : M A := fun w => (o, w).

(** [response.get('answer')]. *)
Definition get_answer (response : Response) : option string :=
  match response !! "answer" with
  | Some (VStr s) => Some s
  | _ => None
  end.

(** [response.get('sources', [])]. *)
Definition get_sources (response : Response) : list Source :=
  match response !! "sources" with
  | Some (VSources l) => l
  | _ => []
  end.

(** [response.get('num_contexts_used', 0)]. *)
Definition get_num_contexts_used (response : Response) : Z :=
  match response !! "num_contexts_used" with
  | Some (VInt n) => n
  | _ => 0
  end.

Definition no_relevant_answer : string :=
  "I could not find relevant information to answer this question.".

(** [self.conversation_history.append(entry)]. *)
Definition append_history (self : RAGSystem) (entry : LogEntry) : RAGSystem :=
  {| vector_store := vector_store self;
     embedding_manager := embedding_manager self;
     llm_client := llm_client self;
     retriever := retriever self;
     conversation_history := conversation_history self ++ [entry] |}.

Definition query (self : RAGSystem) (question : string) (top_k : Z)
    (score_threshold : Q) (llm_kwargs : LlmKwargs) : M (Response * RAGSystem) :=
  let! contexts := lift (retrieve (retriever self) question top_k score_threshold) in
  let! response :=
    match contexts with
    | [] =>
        ret (<["answer" := VStr no_relevant_answer]>
            (<["sources" := VSources []]>
            (<["num_contexts_used" := VInt 0]>
            (<["question" := VStr question]> ∅))))
    | _ :: _ =>
        let! response :=
          generate_response (llm_client self) question contexts
            (default default_model (kw_model llm_kwargs))
            (default (3 # 10)%Q (kw_temperature llm_kwargs))
            (default 1000 (kw_max_tokens llm_kwargs)) in
        ret (<["retrieved_contexts" := VContexts contexts]>
            (<["question" := VStr question]> response))
    end in
  let entry :=
    {| question := question;
       answer := get_answer response;
       sources := get_sources response;
       num_contexts := get_num_contexts_used response |} in
  ret (response, append_history self entry).

(** [get_stats]: [(total_queries, total_contexts_retrieved, avg_contexts_per_query)]. *)
Definition get_stats (self : RAGSystem) : Z * Z * Q :=
  match conversation_history self with
  | [] => (0, 0, 0%Q)
  | _ :: _ =>
      let total_contexts :=
        fold_left Z.add (map num_contexts (conversation_history self)) 0 in
      (len (conversation_history self), total_contexts,
       (inject_Z total_contexts / inject_Z (len (conversation_history self)))%Q)
  end.

Definition clear_history (self : RAGSystem) : RAGSystem :=
  {| vector_store := vector_store self;
     embedding_manager := embedding_manager self;
     llm_client := llm_client self;
     retriever := retriever self;
     conversation_history := [] |}.

(** ** [app.py]: how the interface reads a response *)


(** ** [saver.py]: the conversation store *)

Record RAGSystemSaver : Type := {
  save_dir : string
}.

Definition config_path (self : RAGSystemSaver) (name : string) : string :=
  path_join (save_dir self) (name +:+ "_config.json").

Definition conversations_db_path (self : RAGSystemSaver) (name : string) : string :=
  path_join (save_dir self) (name +:+ "_conversations.db").

(** *** JSON methods *)

Definition save_config_json (self : RAGSystemSaver) (rag_system : RAGSystem)
    (name : string) : M string :=
  let! t := now in
  let config :=
    {| cfg_name := name;
       cfg_created_at := isoformat t;
       cfg_vs_path := persist_directory (vector_store rag_system);
       cfg_vs_collection_name := collection_name (vector_store rag_system);
       cfg_vs_total_documents := collection_count (vector_store rag_system);
       cfg_embedding_model_name := model_name (embedding_manager rag_system);
       cfg_embedding_dim := embedding_dimension (embedding_manager rag_system);
       cfg_llm_provider := "groq";
       cfg_llm_default_model := "llama-3.3-70b-versatile" |} in
  let filepath := config_path self name in
  let! _ := write_file filepath (JsonFile config) in
  ret filepath.

(** [open(filepath, 'r')] raises when the file is missing; [json.load]
    raises on a file that is not JSON. *)
Definition load_config_json (self : RAGSystemSaver) (name : string) : M Config :=
  let filepath := config_path self name in
  let! f := read_file filepath in
  match f with
  | None => raise (FileNotFoundError filepath)
  | Some (JsonFile config) => ret config
  | Some (DbFile _) => raise (JSONDecodeError filepath)
  end.

(** *** SQLite: values, tables and queries *)

(** What a column of [TEXT] affinity stores for a bound Python value: a
    number is converted to its text form. *)
Definition text_affinity (v : PyVal) : option string :=
  match v with
  | PyNone => None
  | PyInt z => Some (pretty z)
  | PyStr s => Some s
  end.

(** What [row[column]] gives back for a [TEXT] column. *)
Definition text_value (c : option string) : PyVal :=
  match c with
  | None => PyNone
  | Some s => PyStr s
  end.

(** The database [CREATE TABLE IF NOT EXISTS] leaves in a new file. *)
Definition empty_database : Database :=
  {| conversations := []; source_rows := [];
     conversations_seq := 0; sources_seq := 0 |}.

(** [sqlite3.connect(db_path)] followed by the first statement: a missing
    file is a new empty database, a file of another kind is refused. *)
Definition connect (db_path : string) : M (option Database) :=
  let! f := read_file db_path in
  match f with
  | None => ret None
  | Some (DbFile db) => ret (Some db)
  | Some (JsonFile _) => raise (DatabaseError db_path)
  end.

Definition _init_sqlite_db (db_path : string) : M unit :=
  let! db := connect db_path in
  match db with
  | None => write_file db_path (DbFile empty_database)
  | Some _ => ret tt
  end.

(** [INSERT INTO conversations (...) VALUES (...)]: the rowid is the
    counter plus one, [created_at] takes [CURRENT_TIMESTAMP]. Gives the
    database and [cursor.lastrowid]. *)
Definition insert_conversation (db : Database) (timestamp : Z) (q : string)
    (a : option string) (n : Z) (avg : Q) (model session : string)
  : Database * Z :=
  let rowid := conversations_seq db + 1 in
  ({| conversations :=
        conversations db ++
        [{| conv_id := rowid; created_at := timestamp; conv_question := q;
            conv_answer := a; conv_num_contexts := n; avg_similarity := avg;
            model_used := model; session_id := session |}];
      source_rows := source_rows db;
      conversations_seq := rowid;
      sources_seq := sources_seq db |}, rowid).

(** [INSERT INTO sources (conversation_id, source_file, page, similarity)]. *)
Definition insert_source (db : Database) (conv : Z) (f p : PyVal) (sim : Q)
  : Database :=
  let rowid := sources_seq db + 1 in
  {| conversations := conversations db;
     source_rows :=
       source_rows db ++
       [{| source_row_id := rowid; conversation_id := conv;
           source_file := text_affinity f; source_page := text_affinity p;
           source_similarity := sim |}];
     conversations_seq := conversations_seq db;
     sources_seq := rowid |}.

(** [sum(similarity_scores) / len(similarity_scores) if similarity_scores else 0]. *)
Definition stored_avg_similarity (conv : LogEntry) : Q :=
  let similarity_scores := map similarity (sources conv) in
  match similarity_scores with
  | [] => 0%Q
  | _ :: _ => (py_sum similarity_scores / inject_Z (len similarity_scores))%Q
  end.

(** The inner loop [for source in conv.get('sources', [])]. *)
Definition insert_sources (db : Database) (conv_id : Z) (srcs : list Source)
  : Database :=
  fold_left (fun d s => insert_source d conv_id (file s) (page s) (similarity s))
            srcs db.

(** The loop [for conv in rag_system.conversation_history]. *)
Fixpoint save_loop (session : string) (history : list LogEntry) (db : Database)
  : M Database :=
  match history with
  | [] => ret db
  | conv :: rest =>
      let avg := stored_avg_similarity conv in
      let! t := now in
      let '(db1, lastrowid) :=
        insert_conversation db (epoch t) (question conv) (answer conv)
          (num_contexts conv) avg "llama-3.3-70b-versatile" session in
      save_loop session rest (insert_sources db1 lastrowid (sources conv))
  end.

(** [session_id or datetime.now().isoformat()]: [None] and the empty string
    are both replaced. *)
Definition session_or_now (session_id : option string) : M string :=
  match session_id with
  | Some (String c s) => ret (String c s)
  | _ => let! t := now in ret (isoformat t)
  end.

Definition save_conversations_sqlite (self : RAGSystemSaver)
    (rag_system : RAGSystem) (name : string) (session_id : option string)
  : M unit :=
  let db_path := conversations_db_path self name in
  let! _ := _init_sqlite_db db_path in
  let! db := connect db_path in
  let! session := session_or_now session_id in
  let! db' := save_loop session (conversation_history rag_system)
                (default empty_database db) in
  write_file db_path (DbFile db').

(** [ORDER BY created_at DESC]: newest first. SQL leaves the order of rows
    with equal timestamps open; here the later row comes first, as a
    backward scan of the index on [created_at] gives them. *)
Fixpoint insert_desc (r : ConversationRow) (l : list ConversationRow)
  : list ConversationRow :=
  match l with
  | [] => [r]
  | x :: t =>
      if created_at x <? created_at r then r :: x :: t
      else x :: insert_desc r t
  end.

Definition order_by_created_at_desc (rows : list ConversationRow)
  : list ConversationRow :=
  fold_right insert_desc [] rows.

(** [LIMIT n]: a negative [n] is no limit. *)
Definition sql_limit {A : Type} (n : Z) (rows : list A) : list A :=
  if n <? 0 then rows else take (Z.to_nat n) rows.

(** A source as [load_conversations_sqlite] gives it back:
    [{'file', 'page', 'similarity'}]. *)
Record LoadedSource : Type := {
  loaded_file : PyVal;
  loaded_page : PyVal;
  loaded_similarity : Q
}.

(** An element of the list [load_conversations_sqlite] returns. *)
Record LoadedConversation : Type := {
  loaded_id : Z;
  loaded_question : string;
  loaded_answer : option string;
  loaded_num_contexts : Z;
  loaded_avg_similarity : Q;
  loaded_created_at : Z;
  loaded_sources : list LoadedSource
}.

(** [SELECT * FROM sources WHERE conversation_id = ?]. *)
Definition select_sources (db : Database) (conv : Z) : list SourceRow :=
  filter (fun s => conversation_id s = conv) (source_rows db).

Definition load_source (s : SourceRow) : LoadedSource :=
  {| loaded_file := text_value (source_file s);
     loaded_page := text_value (source_page s);
     loaded_similarity := source_similarity s |}.

Definition load_conversation (db : Database) (conv : ConversationRow)
  : LoadedConversation :=
  {| loaded_id := conv_id conv;
     loaded_question := conv_question conv;
     loaded_answer := conv_answer conv;
     loaded_num_contexts := conv_num_contexts conv;
     loaded_avg_similarity := avg_similarity conv;
     loaded_created_at := created_at conv;
     loaded_sources := map load_source (select_sources db (conv_id conv)) |}.

Definition load_conversations_sqlite (self : RAGSystemSaver) (name : string)
    (limit : Z) : M (list LoadedConversation) :=
  let db_path := conversations_db_path self name in
  let! db := connect db_path in
  match db with
  | None => ret []
  | Some db =>
      let conversations :=
        sql_limit limit (order_by_created_at_desc (conversations db)) in
      ret (map (load_conversation db) conversations)
  end.

(** *** Statistics *)

(** [AVG(column)]: [NULL] over no rows. *)
Definition sql_avg (values : list Q) : option Q :=
  match values with
  | [] => None
  | _ :: _ => Some (py_sum values / inject_Z (len values))%Q
  end.

(** [GROUP BY source_file] with [COUNT( * )]: one group per distinct value. *)
Fixpoint count_group (key : option string) (groups : list (option string * Z))
  : list (option string * Z) :=
  match groups with
  | [] => [(key, 1)]
  | (k, c) :: t =>
      if decide (k = key) then (k, c + 1) :: t else (k, c) :: count_group key t
  end.

Definition group_by_source_file (rows : list SourceRow)
  : list (option string * Z) :=
  fold_left (fun groups s => count_group (source_file s) groups) rows [].

(** [ORDER BY count DESC]; groups of equal count stay in the order they
    were formed, which SQL leaves open. *)
Fixpoint insert_by_count (g : option string * Z) (l : list (option string * Z))
  : list (option string * Z) :=
  match l with
  | [] => [g]
  | x :: t =>
      if snd x <? snd g then g :: x :: t else x :: insert_by_count g t
  end.

Definition order_by_count_desc (groups : list (option string * Z))
  : list (option string * Z) :=
  fold_left (fun sorted g => insert_by_count g sorted) groups [].

Inductive StatVal : Type :=
  | StatInt (z : Z)
  | StatFloat (q : Q)
  | StatTop (l : list (PyVal * Z)).

Definition get_sqlite_stats (self : RAGSystemSaver) (name : string)
  : M (gmap string StatVal) :=
  let db_path := conversations_db_path self name in
  let! db := connect db_path in
  match db with
  | None => ret ∅
  | Some db =>
      let total_convs := len (conversations db) in
      let avg_sim := default 0%Q (sql_avg (map avg_similarity (conversations db))) in
      let avg_contexts :=
        default 0%Q
          (sql_avg (map (fun c => inject_Z (conv_num_contexts c)) (conversations db))) in
      let top_sources :=
        sql_limit 5 (order_by_count_desc (group_by_source_file (source_rows db))) in
      ret (<["total_conversations" := StatInt total_convs]>
          (<["avg_similarity_score" := StatFloat (py_round avg_sim 3)]>
          (<["avg_contexts_per_query" := StatFloat (py_round avg_contexts 2)]>
          (<["top_sources" :=
               StatTop (map (fun s => (text_value (fst s), snd s)) top_sources)]>
           ∅))))
  end.

(** *** Search *)

(** SQLite folds the case of ASCII letters in [LIKE]. *)
Definition lower (c : ascii) : ascii :=
  let n := nat_of_ascii c in
  if ((65 <=? n) && (n <=? 90))%nat then ascii_of_nat (n + 32) else c.

(** [LIKE] on character lists: [%] stands for any run of characters, [_]
    for any one character, anything else for itself up to ASCII case. *)
Fixpoint like_chars (pattern : list ascii) : list ascii -> bool :=
  match pattern with
  | [] => fun s => match s with [] => true | _ :: _ => false end
  | c :: ps =>
      let rest := like_chars ps in
      if bool_decide (c = "%"%char) then
        fix star (s : list ascii) : bool :=
          rest s || match s with [] => false | _ :: s' => star s' end
      else if bool_decide (c = "_"%char) then
        fun s => match s with [] => false | _ :: s' => rest s' end
      else
        fun s =>
          match s with
          | [] => false
          | d :: s' => bool_decide (lower c = lower d) && rest s'
          end
  end.

(** [value LIKE pattern]; [NULL] when the value is [NULL]. *)
Definition sql_like (value : option string) (pattern : string) : option bool :=
  match value with
  | None => None
  | Some s => Some (like_chars (list_ascii_of_string pattern) (list_ascii_of_string s))
  end.

(** Three-valued [AND] and [OR]. *)
Definition sql_and (a b : option bool) : option bool :=
  match a, b with
  | Some false, _ | _, Some false => Some false
  | Some true, Some true => Some true
  | _, _ => None
  end.

Definition sql_or (a b : option bool) : option bool :=
  match a, b with
  | Some true, _ | _, Some true => Some true
  | Some false, Some false => Some false
  | _, _ => None
  end.

(** [avg_similarity >= ?]. *)
Definition sql_ge (a b : Q) : option bool := Some (Qle_bool b a).

(** The [WHERE] clause of [search_conversations] as SQL parses it: [AND]
    binds tighter than [OR]. *)
Definition search_where (pattern : string) (min_similarity : Q)
    (r : ConversationRow) : option bool :=
  sql_or (sql_like (Some (conv_question r)) pattern)
         (sql_and (sql_like (conv_answer r) pattern)
                  (sql_ge (avg_similarity r) min_similarity)).

(** A row is selected when the condition is true (not false, not [NULL]). *)
Definition sql_true (c : option bool) : bool :=
  match c with
  | Some true => true
  | _ => false
  end.

Definition search_conversations (self : RAGSystemSaver) (name query_text : string)
    (min_similarity : Q) : M (list ConversationRow) :=
  let db_path := conversations_db_path self name in
  let! db := connect db_path in
  match db with
  | None => ret []
  | Some db =>
      let pattern := "%" +:+ query_text +:+ "%" in
      ret (order_by_created_at_desc
             (filter (fun r => sql_true (search_where pattern min_similarity r) = true)
                     (conversations db)))
  end.

(** ** Specification vocabulary *)




(** The source a saved one is read back as: [file] and [page] in the text
    form their columns hold. *)
Definition stored_form (s : Source) : LoadedSource :=
  {| loaded_file := text_value (text_affinity (file s));
     loaded_page := text_value (text_affinity (page s));
     loaded_similarity := similarity s |}.


(** The source read back with its three fields exactly as saved. *)
Definition exact_form (s : Source) : LoadedSource :=
  {| loaded_file := file s; loaded_page := page s;
     loaded_similarity := similarity s |}.

(** What the store holds under a path: nothing yet, or a database. *)
Definition store_database (w : World) (path : string) : option Database :=
  match files w !! path with
  | None => Some empty_database
  | Some (DbFile db) => Some db
  | Some (JsonFile _) => None
  end.

(** The invariant of a database written by [save_conversations_sqlite]:
    no conversation and no source row refers to a rowid beyond the counter. *)
Definition db_wf (db : Database) : Prop :=
  Forall (fun r => conv_id r <= conversations_seq db) (conversations db)
  /\ Forall (fun s => conversation_id s <= conversations_seq db) (source_rows db).

(** The rows of [conversations] are newest first. *)
Fixpoint newest_first (rows : list ConversationRow) : Prop :=
  match rows with
  | [] => True
  | r :: rest =>
      Forall (fun x => created_at x <= created_at r) rest /\ newest_first rest
  end.


(** The request a call of [generate_response] sends. *)
Definition request_of (query : string) (contexts : list Context) (model : string)
    (temperature : Q) (max_tokens : Z) : CompletionRequest :=
  {| req_model := model; req_prompt := build_prompt query contexts;
     req_temperature := temperature; req_max_tokens := max_tokens |}.

(** The world after the completion service has received [req]. *)
Definition after_call (w : World) (req : CompletionRequest) : World :=
  {| completion_calls := completion_calls w ++ [req]; files := files w;
     clock := clock w; clock_reads := clock_reads w |}.

(** The world after [n] more readings of the clock. *)
Definition advance (w : World) (n : nat) : World :=
  {| completion_calls := completion_calls w; files := files w;
     clock := clock w; clock_reads := (n + clock_reads w)%nat |}.

(** The world after [path] was written. *)
Definition with_file (w : World) (path : string) (f : File) : World :=
  {| completion_calls := completion_calls w; files := <[path := f]> (files w);
     clock := clock w; clock_reads := clock_reads w |}.

(** The three shapes of response the program builds. *)
Definition success_response (answer model : string) (contexts : list Context)
  : Response :=
  <["answer" := VStr answer]>
  (<["sources" := VSources (extract_sources contexts)]>
  (<["model" := VStr model]>
  (<["num_contexts_used" := VInt (len contexts)]>
  (<["avg_similarity" := VFloat (average_similarity (extract_sources contexts))]> ∅)))).

Definition degraded_response (answer model : string) : Response :=
  <["answer" := VStr answer]>
  (<["sources" := VSources []]>
  (<["model" := VStr model]>
  (<["num_contexts_used" := VInt 0]>
  (<["avg_similarity" := VFloat 0%Q]> ∅)))).

Definition no_contexts_response (question : string) : Response :=
  <["answer" := VStr no_relevant_answer]>
  (<["sources" := VSources []]>
  (<["num_contexts_used" := VInt 0]>
  (<["question" := VStr question]> ∅))).

(** The synthesizer's response with the question and the chunks merged in. *)
Definition merged_response (question : string) (contexts : list Context)
    (response : Response) : Response :=
  <["retrieved_contexts" := VContexts contexts]>
  (<["question" := VStr question]> response).

(** The log entry derived from a response. *)
Definition entry_of (question : string) (response : Response) : LogEntry :=
  {| question := question;
     answer := get_answer response;
     sources := get_sources response;
     num_contexts := get_num_contexts_used response |}.

(** What [save_loop] writes into the row of an entry. *)
Definition stored_fields (session : string) (e : LogEntry) (row : ConversationRow)
  : Prop :=
  conv_question row = question e
  /\ conv_answer row = answer e
  /\ conv_num_contexts row = num_contexts e
  /\ avg_similarity row = stored_avg_similarity e
  /\ model_used row = "llama-3.3-70b-versatile"
  /\ session_id row = session.

(** The source rows of an entry, as a later load selects and reads them. *)
Definition stored_sources (db : Database) (e : LogEntry) (row : ConversationRow)
  : Prop :=
  map load_source (select_sources db (conv_id row)) = map stored_form (sources e).

(** The [model_used] column of the store under [path]. *)
Definition stored_models (w : World) (path : string) : list string :=
  match files w !! path with
  | Some (DbFile db) => map model_used (conversations db)
  | _ => []
  end.

(** ** Example inputs *)

Definition chunk_a : Context :=
  {| content := "Invoices are due within 30 days.";
     metadata := <["source_file" := PyStr "terms.pdf"]> (<["page" := PyInt 3]> ∅);
     similarity_score := Some (9 # 10)%Q |}.

Definition chunk_b : Context :=
  {| content := "Late payments incur a fee.";
     metadata := <["source_file" := PyStr "fees.pdf"]> (<["page" := PyStr "ii"]> ∅);
     similarity_score := Some (6 # 10)%Q |}.

Definition chunk_weak : Context :=
  {| content := "Appendix.";
     metadata := <["source_file" := PyStr "terms.pdf"]> (<["page" := PyInt 7]> ∅);
     similarity_score := Some (1 # 10)%Q |}.

(** A completion service that answers, and one that fails. *)
Definition groq_answering : GroqClient :=
  {| api_key := "key"; client := fun _ _ => Return "Within 30 days [1]." |}.

Definition groq_failing : GroqClient :=
  {| api_key := "key"; client := fun _ _ => Raise (Exception "rate limit exceeded") |}.

Definition example_rag (llm : GroqClient) (found : list Context) : RAGSystem :=
  {| vector_store :=
       {| persist_directory := "data/vector_store";
          collection_name := "pdf_documents"; collection_count := 42 |};
     embedding_manager :=
       {| model_name := "all-MiniLM-L6-v2"; embedding_dimension := 384 |};
     llm_client := llm;
     retriever := {| retrieve := fun _ _ _ => Return found |};
     conversation_history := [] |}.

Definition example_saver : RAGSystemSaver := {| save_dir := "rag_saves" |}.

Definition override_kwargs : LlmKwargs :=
  {| kw_model := Some "mixtral-8x7b-32768"; kw_temperature := None;
     kw_max_tokens := None |}.

(** A world with no files, whose clock advances one second per reading. *)
Definition world0 : World :=
  {| completion_calls := [];
     files := ∅;
     clock := fun n =>
       {| epoch := 1700000000 + Z.of_nat n;
          isoformat := "2023-11-14T22:13:" +:+ pretty (20 + Z.of_nat n) |};
     clock_reads := 0%nat |}.

(** The entry [query] logs for [chunk_a]: it cites page 3, an integer. *)
Definition example_entry : LogEntry :=
  {| question := "When are invoices due?";
     answer := Some "Within 30 days [1].";
     sources :=
       [{| src_id := 1; file := PyStr "terms.pdf"; page := PyInt 3;
           similarity := (9 # 10)%Q |}];
     num_contexts := 1 |}.

Definition example_logged : RAGSystem :=
  append_history (example_rag groq_answering [chunk_a]) example_entry.

(** The entry [query] logs for [chunk_weak]: the question contains
    "invoice", the answer does not, the similarity is 0.1. *)
Definition weak_entry : LogEntry :=
  {| question := "Where is the invoice?";
     answer := Some "Within 30 days [1].";
     sources :=
       [{| src_id := 1; file := PyStr "terms.pdf"; page := PyInt 7;
           similarity := (1 # 10)%Q |}];
     num_contexts := 1 |}.

Definition weak_logged : RAGSystem :=
  append_history (example_rag groq_answering [chunk_weak]) weak_entry.

(** The world after a log was saved under the default name. *)
Definition world_saved (rag : RAGSystem) : World :=
  snd (save_conversations_sqlite example_saver rag "default" None world0).

(** * Further definitions *)

(** ** [llm_client.py]: construction of the client *)

Definition api_key_missing_message : string :=
  "Groq API key not found. Set GROQ_API_KEY environment variable or pass api_key parameter.".

(** What leaves [GroqClient.__init__]: the object, the [ValueError] of a
    missing key, or the exception of the SDK's constructor, raised again
    by [_initialize_client]. *)
Inductive Constructed : Type :=
  | Built (c : GroqClient)
  | ValueError (msg : string)
  | Reraised (e : Exn).

(** [GroqClient.__init__(api_key)]: [environ] is [os.environ], [Groq] the
    constructor of the SDK, which gives the completion service or raises.
    [api_key or os.environ.get(...)]: a key that is [None] or empty is
    replaced by the environment's; [not self.api_key] holds for [None] and
    for the empty string. *)
Definition GroqClient_init (key : option string) (environ : gmap string string)
    (Groq : string -> Outcome (list CompletionRequest -> CompletionRequest -> Outcome string))
  : Constructed :=
  let chosen :=
    match key with
    | Some (String c s) => Some (String c s)
    | _ => environ !! "GROQ_API_KEY"
    end in
  match chosen with
  | Some (String c s) =>
      match Groq (String c s) with
      | Return service => Built {| api_key := String c s; client := service |}
      | Raise e => Reraised e
      end
  | _ => ValueError api_key_missing_message
  end.

(** ** Vocabulary of the further properties *)

(** The session label [save_conversations_sqlite] uses in world [w]. *)
Definition session_label (session_id : option string) (w : World) : string :=
  match session_id with
  | Some (String c s) => String c s
  | _ => isoformat (clock w (clock_reads w))
  end.

(** The number of clock readings the session label costs. *)
Definition session_reads (session_id : option string) : nat :=
  match session_id with
  | Some (String _ _) => 0
  | _ => 1
  end.

(** The number of source rows that cite [f]. *)
Definition count_citations (f : option string) (rows : list SourceRow) : Z :=
  len (filter (fun s => source_file s = f) rows).

(** Groups with the larger counts first. *)
Fixpoint most_cited_first (groups : list (option string * Z)) : Prop :=
  match groups with
  | [] => True
  | g :: rest => Forall (fun x => snd x <= snd g) rest /\ most_cited_first rest
  end.

(** The text contains no [LIKE] wildcard. *)
Definition no_wildcards (s : string) : Prop :=
  Forall (fun c => c <> "%"%char /\ c <> "_"%char) (list_ascii_of_string s).

(** [needle] occurs in [hay] up to the case of ASCII letters. *)
Definition contains_nocase (needle hay : string) : Prop :=
  exists a b c,
    list_ascii_of_string hay = a ++ b ++ c
    /\ map lower b = map lower (list_ascii_of_string needle).

(** The sum of the [num_contexts] of a log. *)
Definition total_num_contexts (history : list LogEntry) : Z :=
  fold_right (fun e acc => num_contexts e + acc) 0 history.



(** The count a key has in a list of groups, 0 when it has no group. *)
Fixpoint group_count (key : option string) (groups : list (option string * Z)) : Z :=
  match groups with
  | [] => 0
  | (k, c) :: t => if decide (k = key) then c else group_count key t
  end.

(** The request [query] sends for a question and its contexts. *)
Definition query_request (question : string) (contexts : list Context)
    (kw : LlmKwargs) : CompletionRequest :=
  request_of question contexts
    (default default_model (kw_model kw))
    (default (3 # 10)%Q (kw_temperature kw))
    (default 1000 (kw_max_tokens kw)).

(** ** Further example inputs *)

(** The database that saving [weak_logged] into a new store leaves. *)
Definition weak_database : Database :=
  {| conversations :=
       [{| conv_id := 1; created_at := 1700000001;
           conv_question := "Where is the invoice?";
           conv_answer := Some "Within 30 days [1].";
           conv_num_contexts := 1; avg_similarity := (1 # 10)%Q;
           model_used := "llama-3.3-70b-versatile";
           session_id := "2023-11-14T22:13:20" |}];
     source_rows :=
       [{| source_row_id := 1; conversation_id := 1;
           source_file := Some "terms.pdf"; source_page := Some "7";
           source_similarity := (1 # 10)%Q |}];
     conversations_seq := 1;
     sources_seq := 1 |}.

(** The world in which the store "default" holds [weak_database]. *)
Definition world_weak : World := world_saved weak_logged.

(** * Properties *)

(** Expose the file lookup a store operation starts with. *)
Ltac unfold_store :=
  unfold load_conversations_sqlite, search_conversations, get_sqlite_stats,
    load_config_json, connect, read_file, bind.

(** ** Strings and enumeration *)

Lemma string_app_assoc (s1 s2 s3 : string) :
  s1 +:+ (s2 +:+ s3) = (s1 +:+ s2) +:+ s3.
Proof.
  induction s1 as [|c s IH]; [reflexivity|].
  change (String c (s +:+ (s2 +:+ s3)) = String c ((s +:+ s2) +:+ s3)).
  by rewrite IH.
Qed.





Lemma enumerate_length {A : Type} (l : list A) (start : Z) :
  length (enumerate start l) = length l.
Proof. revert start. induction l; intros; simpl; auto. Qed.

Lemma enumerate_lookup_inv {A : Type} (l : list A) (start : Z) (i : nat) p :
  enumerate start l !! i = Some p ->
  fst p = start + Z.of_nat i /\ l !! i = Some (snd p).
Proof.
  revert start i. induction l as [|y l IH]; intros start i H; [done|].
  destruct i as [|i]; simpl in *.
  - inversion H; subst; simpl. split; [lia|done].
  - destruct (IH _ _ H) as [-> ?]. split; [lia|done].
Qed.



(** ** The synthesizer *)

Lemma extract_sources_lookup (contexts : list Context) (i : nat) (s : Source) :
  extract_sources contexts !! i = Some s ->
  exists ctx, contexts !! i = Some ctx
    /\ src_id s = Z.of_nat i + 1
    /\ file s = metadata_get ctx "source_file" (PyStr "Unknown")
    /\ page s = metadata_get ctx "page" (PyStr "N/A")
    /\ similarity s = similarity_get ctx.
Proof.
  unfold extract_sources. rewrite list_lookup_fmap.
  destruct (enumerate 0 contexts !! i) as [p|] eqn:Hp; [|done].
  intros [= <-]. apply enumerate_lookup_inv in Hp as [Hi Hctx].
  exists (snd p). simpl. rewrite Hi. repeat split; auto.
Qed.

Lemma extract_sources_length (contexts : list Context) :
  length (extract_sources contexts) = length contexts.
Proof. unfold extract_sources. by rewrite length_map, enumerate_length. Qed.


Lemma generate_response_returns self query contexts model temperature max_tokens w a :
  contexts <> [] ->
  client self (completion_calls w)
    (request_of query contexts model temperature max_tokens) = Return a ->
  generate_response self query contexts model temperature max_tokens w
  = (Return (success_response a model contexts),
     after_call w (request_of query contexts model temperature max_tokens)).
Proof.
  intros Hne Hc. destruct contexts as [|c cs]; [done|].
  unfold generate_response, try_except, bind, chat_completions_create.
  fold (request_of query (c :: cs) model temperature max_tokens).
  rewrite Hc. reflexivity.
Qed.

Lemma generate_response_raises self query contexts model temperature max_tokens w e :
  contexts <> [] ->
  client self (completion_calls w)
    (request_of query contexts model temperature max_tokens) = Raise e ->
  generate_response self query contexts model temperature max_tokens w
  = (Return (degraded_response ("Error generating response: " +:+ exn_str e) model),
     after_call w (request_of query contexts model temperature max_tokens)).
Proof.
  intros Hne Hc. destruct contexts as [|c cs]; [done|].
  unfold generate_response, try_except, bind, chat_completions_create.
  fold (request_of query (c :: cs) model temperature max_tokens).
  rewrite Hc. reflexivity.
Qed.

Lemma degraded_response_fields (a model : string) :
  degraded_response a model !! "answer" = Some (VStr a)
  /\ degraded_response a model !! "sources" = Some (VSources [])
  /\ degraded_response a model !! "model" = Some (VStr model)
  /\ degraded_response a model !! "num_contexts_used" = Some (VInt 0)
  /\ degraded_response a model !! "avg_similarity" = Some (VFloat 0%Q).
Proof. unfold degraded_response. repeat split; by simplify_map_eq. Qed.

Lemma success_response_fields (a model : string) (contexts : list Context) :
  success_response a model contexts !! "answer" = Some (VStr a)
  /\ success_response a model contexts !! "sources"
     = Some (VSources (extract_sources contexts))
  /\ success_response a model contexts !! "model" = Some (VStr model)
  /\ success_response a model contexts !! "num_contexts_used"
     = Some (VInt (len contexts))
  /\ success_response a model contexts !! "avg_similarity"
     = Some (VFloat (average_similarity (extract_sources contexts))).
Proof. unfold success_response. repeat split; by simplify_map_eq. Qed.





(** C5. When the contexts are not empty and the completion service raises,
    the synthesizer returns (it does not raise) a response whose answer is
    the non-empty text "Error generating response: " followed by the
    error, with no sources, the model asked for, [num_contexts_used = 0]
    and [avg_similarity = 0.0]. *)
Theorem completion_failure_is_degraded_response
    self query contexts model temperature max_tokens w e :
  contexts <> [] ->
  client self (completion_calls w)
    (request_of query contexts model temperature max_tokens) = Raise e ->
  exists r w' a,
    generate_response self query contexts model temperature max_tokens w
    = (Return r, w')
    /\ r !! "answer" = Some (VStr a)
    /\ a = "Error generating response: " +:+ exn_str e
    /\ a <> ""
    /\ r !! "sources" = Some (VSources [])
    /\ r !! "model" = Some (VStr model)
    /\ r !! "num_contexts_used" = Some (VInt 0)
    /\ r !! "avg_similarity" = Some (VFloat 0%Q).
Proof.
  intros Hne Hc.
  eexists _, _, _. split; [by apply generate_response_raises|].
  destruct (degraded_response_fields
              ("Error generating response: " +:+ exn_str e) model) as (?&?&?&?&?).
  repeat split; auto; try discriminate.
Qed.

(** The failure of C5 on two chunks and a service that reports a rate limit. *)
Lemma completion_failure_witness :
  [chunk_a; chunk_b] <> []
  /\ exists r w' a,
    generate_response groq_failing "When?" [chunk_a; chunk_b] default_model
      (3 # 10)%Q 1000 world0 = (Return r, w')
    /\ r !! "answer" = Some (VStr a)
    /\ a = "Error generating response: " +:+ exn_str (Exception "rate limit exceeded")
    /\ a <> ""
    /\ r !! "sources" = Some (VSources [])
    /\ r !! "model" = Some (VStr default_model)
    /\ r !! "num_contexts_used" = Some (VInt 0)
    /\ r !! "avg_similarity" = Some (VFloat 0%Q).
Proof.
  split; [discriminate|].
  apply (completion_failure_is_degraded_response groq_failing "When?"
           [chunk_a; chunk_b] default_model (3 # 10)%Q 1000 world0
           (Exception "rate limit exceeded")); [discriminate|reflexivity].
Defined.



Example rendered_context_text_two_chunks :
  context_text [chunk_a; chunk_b]
  = "[1] (Source: terms.pdf, Page: 3, Relevance: 90.0%)" +:+ nl
    +:+ "Invoices are due within 30 days." +:+ nl +:+ nl
    +:+ "[2] (Source: fees.pdf, Page: ii, Relevance: 60.0%)" +:+ nl
    +:+ "Late payments incur a fee.".
Proof. vm_compute. reflexivity. Qed.

Example sources_two_chunks :
  extract_sources [chunk_a; chunk_b]
  = [ {| src_id := 1; file := PyStr "terms.pdf"; page := PyInt 3;
         similarity := (9 # 10)%Q |};
      {| src_id := 2; file := PyStr "fees.pdf"; page := PyStr "ii";
         similarity := (6 # 10)%Q |} ].
Proof. vm_compute. reflexivity. Qed.

(** ** Average similarity *)







(** ** The orchestrator *)

Lemma query_no_contexts self question top_k score_threshold kw w :
  retrieve (retriever self) question top_k score_threshold = Return [] ->
  query self question top_k score_threshold kw w
  = (Return (no_contexts_response question,
             append_history self (entry_of question (no_contexts_response question))),
     w).
Proof. intros H. unfold query, bind, lift. rewrite H. reflexivity. Qed.

Lemma query_with_contexts self question top_k score_threshold kw w contexts r w' :
  retrieve (retriever self) question top_k score_threshold = Return contexts ->
  contexts <> [] ->
  generate_response (llm_client self) question contexts
    (default default_model (kw_model kw))
    (default (3 # 10)%Q (kw_temperature kw))
    (default 1000 (kw_max_tokens kw)) w = (Return r, w') ->
  query self question top_k score_threshold kw w
  = (Return (merged_response question contexts r,
             append_history self
               (entry_of question (merged_response question contexts r))),
     w').
Proof.
  intros H Hne Hg. unfold query, bind, lift. rewrite H.
  destruct contexts as [|c cs]; [done|]. rewrite Hg. reflexivity.
Qed.

(** A failure of the retriever leaves the call: nothing is logged. *)
Lemma query_retrieval_raises self question top_k score_threshold kw w e :
  retrieve (retriever self) question top_k score_threshold = Raise e ->
  query self question top_k score_threshold kw w = (Raise e, w).
Proof. intros H. unfold query, bind, lift. by rewrite H. Qed.

Lemma no_contexts_response_fields (question : string) :
  no_contexts_response question !! "answer" = Some (VStr no_relevant_answer)
  /\ no_contexts_response question !! "sources" = Some (VSources [])
  /\ no_contexts_response question !! "num_contexts_used" = Some (VInt 0)
  /\ no_contexts_response question !! "question" = Some (VStr question)
  /\ no_contexts_response question !! "avg_similarity" = None
  /\ no_contexts_response question !! "model" = None.
Proof. unfold no_contexts_response. repeat split; by simplify_map_eq. Qed.

Lemma merged_response_fields question contexts (r : Response) :
  merged_response question contexts r !! "answer" = r !! "answer"
  /\ merged_response question contexts r !! "sources" = r !! "sources"
  /\ merged_response question contexts r !! "num_contexts_used"
     = r !! "num_contexts_used"
  /\ merged_response question contexts r !! "avg_similarity" = r !! "avg_similarity"
  /\ merged_response question contexts r !! "model" = r !! "model".
Proof. unfold merged_response. repeat split; by simplify_map_eq. Qed.






(** The example logs are what [query] leaves behind. *)
Example query_logs_example_entry :
  exists r w',
    query (example_rag groq_answering [chunk_a]) "When are invoices due?" 5
      (1 # 2)%Q no_kwargs world0 = (Return (r, example_logged), w').
Proof.
  eexists _, _.
  erewrite query_with_contexts;
    [|reflexivity|discriminate|by apply generate_response_returns].
  do 2 f_equal.
Qed.

Example query_logs_weak_entry :
  exists r w',
    query (example_rag groq_answering [chunk_weak]) "Where is the invoice?" 5
      (1 # 20)%Q no_kwargs world0 = (Return (r, weak_logged), w').
Proof.
  eexists _, _.
  erewrite query_with_contexts;
    [|reflexivity|discriminate|by apply generate_response_returns].
  do 2 f_equal.
Qed.

(** ** The conversation store: writing *)

Lemma filter_all {A : Type} (P : A -> Prop) `{forall x, Decision (P x)} (l : list A) :
  Forall P l -> filter P l = l.
Proof.
  induction 1 as [|x l Hx _ IH]; [done|].
  rewrite filter_cons_True by done. by rewrite IH.
Qed.

Lemma filter_none {A : Type} (P : A -> Prop) `{forall x, Decision (P x)} (l : list A) :
  Forall (fun x => ~ P x) l -> filter P l = [].
Proof.
  induction 1 as [|x l Hx _ IH]; [done|].
  by rewrite filter_cons_False.
Qed.


Lemma db_wf_empty : db_wf empty_database.
Proof. split; constructor. Qed.

(** The inner loop adds, after the rows already there, one row per source,
    all under the given conversation; read back, they are the sources in
    their stored form. *)
Lemma insert_sources_spec (srcs : list Source) (db : Database) (conv : Z) :
  conversations (insert_sources db conv srcs) = conversations db
  /\ conversations_seq (insert_sources db conv srcs) = conversations_seq db
  /\ exists rows,
       source_rows (insert_sources db conv srcs) = source_rows db ++ rows
       /\ Forall (fun s => conversation_id s = conv) rows
       /\ map load_source rows = map stored_form srcs.
Proof.
  revert db. induction srcs as [|s srcs IH]; intros db.
  - repeat split; auto. exists []. by rewrite app_nil_r.
  - unfold insert_sources. simpl fold_left.
    destruct (IH (insert_source db conv (file s) (page s) (similarity s)))
      as (Hc & Hq & rows & Hrows & Hall & Hload).
    unfold insert_sources in Hc, Hq, Hrows.
    rewrite Hc, Hq. repeat split; auto.
    eexists (_ :: rows). rewrite Hrows. simpl source_rows.
    rewrite <- app_assoc. split; [reflexivity|]. split.
    + constructor; [reflexivity|done].
    + simpl. by rewrite Hload.
Qed.

(** The outer loop never raises. It reads the clock once per entry and
    appends one conversation row per entry, under consecutive rowids, with
    the fields of the entry; in a database that satisfies the invariant,
    selecting the sources of each new row gives the sources of its entry. *)
Lemma save_loop_spec (session : string) (history : list LogEntry) :
  forall (db : Database) (w : World),
    exists db' rows srs,
      save_loop session history db w = (Return db', advance w (length history))
      /\ conversations db' = conversations db ++ rows
      /\ source_rows db' = source_rows db ++ srs
      /\ Forall (fun s => conversations_seq db < conversation_id s) srs
      /\ conversations_seq db' = conversations_seq db + len history
      /\ map conv_id rows = seqZ (conversations_seq db + 1) (len history)
      /\ map created_at rows
         = map (fun k => epoch (clock w (clock_reads w + k)%nat))
               (seq 0 (length history))
      /\ Forall2 (stored_fields session) history rows
      /\ (db_wf db -> db_wf db' /\ Forall2 (stored_sources db') history rows).
Proof.
  induction history as [|e rest IH]; intros db w.
  - exists db, [], []. simpl. rewrite !app_nil_r.
    split; [by destruct w|].
    repeat (split; [first [done | constructor | (unfold len; simpl; lia)]|]).
    constructor.
  - set (id := conversations_seq db + 1).
    set (t := clock w (clock_reads w)).
    set (db1 := fst (insert_conversation db (epoch t) (question e) (answer e)
                       (num_contexts e) (stored_avg_similarity e)
                       "llama-3.3-70b-versatile" session)).
    set (db2 := insert_sources db1 id (sources e)).
    destruct (insert_sources_spec (sources e) db1 id)
      as (Hc2 & Hq2 & srs_e & Hs2 & Hall_e & Hload_e).
    fold db2 in Hc2, Hq2, Hs2.
    assert (Hwf2 : db_wf db -> db_wf db2).
    { intros [Hwc Hws]. split.
      - rewrite Hc2, Hq2. simpl. apply Forall_app. split.
        + eapply Forall_impl; [exact Hwc|]. simpl. intros; lia.
        + repeat constructor. simpl. lia.
      - rewrite Hs2, Hq2. simpl. apply Forall_app. split.
        + eapply Forall_impl; [exact Hws|]. simpl. intros; lia.
        + eapply Forall_impl; [exact Hall_e|]. simpl. intros ? ->. lia. }
    destruct (IH db2 (advance w 1))
      as (db' & rows' & srs' & Hrun & Hc' & Hs' & Hgt' & Hq' & Hid' & Hts' & Hfl' & Hsrc').
    rewrite Hq2 in Hgt', Hq', Hid'. simpl in Hgt', Hq', Hid'.
    eexists db', (_ :: rows'), (srs_e ++ srs').
    split.
    { simpl save_loop. unfold bind at 1. unfold now.
      change (save_loop session rest db2 (advance w 1)
              = (Return db', advance w (length (e :: rest)))).
      rewrite Hrun. f_equal. unfold advance. simpl. f_equal. lia. }
    split. { rewrite Hc', Hc2. simpl. by rewrite <- app_assoc. }
    split. { rewrite Hs', Hs2. simpl. by rewrite <- app_assoc. }
    split.
    { apply Forall_app. split.
      - eapply Forall_impl; [exact Hall_e|]. simpl. intros ? ->. unfold id. lia.
      - eapply Forall_impl; [exact Hgt'|]. simpl. intros; lia. }
    split. { rewrite Hq'. unfold len. simpl length. lia. }
    split.
    { simpl map. rewrite Hid'. unfold len. simpl length.
      rewrite (seqZ_cons (conversations_seq db + 1)) by lia.
      f_equal. f_equal; lia. }
    split.
    { simpl map. rewrite Hts'. simpl clock. simpl clock_reads.
      rewrite Nat.add_0_r. f_equal.
      rewrite <- seq_shift, map_map. apply map_ext. intros k.
      do 2 f_equal. lia. }
    split. { constructor; [|exact Hfl']. repeat split; reflexivity. }
    intros Hwf. destruct (Hsrc' (Hwf2 Hwf)) as [Hwf' Hst'].
    split; [exact Hwf'|]. constructor; [|exact Hst'].
    destruct Hwf as [_ Hws].
    unfold stored_sources. simpl conv_id. fold id.
    unfold select_sources. rewrite Hs', Hs2. simpl source_rows.
    rewrite !filter_app.
    rewrite (filter_none _ (source_rows db)), (filter_all _ srs_e), (filter_none _ srs').
    + by rewrite app_nil_r.
    + eapply Forall_impl; [exact Hgt'|]. simpl. unfold id. intros; lia.
    + exact Hall_e.
    + eapply Forall_impl; [exact Hws|]. simpl. unfold id. intros; lia.
Qed.

Lemma session_or_now_spec (session_id : option string) (w : World) :
  exists s n, session_or_now session_id w = (Return s, advance w n).
Proof.
  destruct session_id as [[|c s]|].
  - exists (isoformat (clock w (clock_reads w))), 1%nat. reflexivity.
  - exists (String c s), 0%nat. by destruct w.
  - exists (isoformat (clock w (clock_reads w))), 1%nat. reflexivity.
Qed.

(** Saving into a store that is missing or holds a database returns, writes
    the database file and nothing else, and sends nothing to the completion
    service; the file then holds the old rows followed by one row per
    entry of the log. *)
Lemma save_conversations_sqlite_spec self rag name session_id w db0 :
  store_database w (conversations_db_path self name) = Some db0 ->
  exists w' db' rows session,
    save_conversations_sqlite self rag name session_id w = (Return tt, w')
    /\ files w' !! conversations_db_path self name = Some (DbFile db')
    /\ (forall p, p <> conversations_db_path self name -> files w' !! p = files w !! p)
    /\ completion_calls w' = completion_calls w
    /\ conversations db' = conversations db0 ++ rows
    /\ map conv_id rows
       = seqZ (conversations_seq db0 + 1) (len (conversation_history rag))
    /\ Forall2 (stored_fields session) (conversation_history rag) rows
    /\ (db_wf db0 ->
        db_wf db' /\ Forall2 (stored_sources db') (conversation_history rag) rows).
Proof.
  intros Hstore.
  set (path := conversations_db_path self name) in *.
  assert (exists w1, _init_sqlite_db path w = (Return tt, w1)
            /\ connect path w1 = (Return (Some db0), w1)
            /\ completion_calls w1 = completion_calls w
            /\ (forall p, p <> path -> files w1 !! p = files w !! p))
    as (w1 & Hinit & Hconn & Hcalls1 & Hother1).
  { unfold store_database in Hstore.
    unfold _init_sqlite_db, connect, bind, read_file.
    destruct (files w !! path) as [[db|cfg]|] eqn:Hf; [| done |].
    - injection Hstore as ->. exists w. simpl. rewrite Hf. by simpl.
    - injection Hstore as <-.
      exists (with_file w path (DbFile empty_database)). simpl.
      rewrite lookup_insert_eq. repeat split; auto.
      intros p Hp. by rewrite lookup_insert_ne. }
  destruct (session_or_now_spec session_id w1) as (session & n & Hsess).
  destruct (save_loop_spec session (conversation_history rag) db0 (advance w1 n))
    as (db' & rows & srs & Hrun & Hc' & _ & _ & _ & Hid' & _ & Hfl' & Hsrc').
  eexists _, db', rows, session. split.
  { unfold save_conversations_sqlite. fold path.
    unfold bind at 1. rewrite Hinit.
    unfold bind at 1. rewrite Hconn.
    unfold bind at 1. rewrite Hsess.
    unfold bind at 1. simpl default. rewrite Hrun.
    reflexivity. }
  simpl. rewrite lookup_insert_eq. split; [done|]. split.
  { intros p Hp. rewrite lookup_insert_ne by done. by apply Hother1. }
  split; [done|]. auto.
Qed.

(** ** The conversation store: ordering, loading, searching *)

Lemma insert_desc_perm (r : ConversationRow) (l : list ConversationRow) :
  insert_desc r l ≡ₚ r :: l.
Proof.
  induction l as [|x l IH]; simpl; [done|].
  destruct (created_at x <? created_at r); [done|].
  rewrite IH. apply Permutation_swap.
Qed.

Lemma order_by_created_at_desc_perm (rows : list ConversationRow) :
  order_by_created_at_desc rows ≡ₚ rows.
Proof.
  induction rows as [|r l IH]; simpl; [done|].
  unfold order_by_created_at_desc in *. simpl.
  rewrite insert_desc_perm. by rewrite IH.
Qed.

Lemma insert_desc_newest_first (r : ConversationRow) (l : list ConversationRow) :
  newest_first l -> newest_first (insert_desc r l).
Proof.
  induction l as [|x l IH]; simpl.
  - intros _. split; [constructor|done].
  - intros [Hall Hl]. destruct (created_at x <? created_at r) eqn:E.
    + apply Z.ltb_lt in E. simpl. repeat split; auto.
      constructor; [lia|].
      eapply Forall_impl; [exact Hall|]. simpl. intros; lia.
    + apply Z.ltb_ge in E. simpl. split; [|by apply IH].
      rewrite insert_desc_perm. by constructor.
Qed.

Lemma order_by_created_at_desc_newest_first (rows : list ConversationRow) :
  newest_first (order_by_created_at_desc rows).
Proof.
  induction rows as [|r l IH]; simpl; [done|].
  by apply insert_desc_newest_first.
Qed.


Lemma load_conversations_sqlite_spec self name limit w db :
  files w !! conversations_db_path self name = Some (DbFile db) ->
  load_conversations_sqlite self name limit w
  = (Return (map (load_conversation db)
               (sql_limit limit (order_by_created_at_desc (conversations db)))), w).
Proof.
  intros H. unfold_store. by rewrite H.
Qed.

Lemma search_conversations_spec self name query_text min_similarity w db :
  files w !! conversations_db_path self name = Some (DbFile db) ->
  search_conversations self name query_text min_similarity w
  = (Return (order_by_created_at_desc
               (filter (fun r => sql_true (search_where ("%" +:+ query_text +:+ "%")
                                             min_similarity r) = true)
                       (conversations db))), w).
Proof.
  intros H. unfold_store. by rewrite H.
Qed.

Lemma search_where_true (pattern : string) (min_similarity : Q) (r : ConversationRow) :
  sql_true (search_where pattern min_similarity r) = true <->
  (sql_like (Some (conv_question r)) pattern = Some true
   \/ (sql_like (conv_answer r) pattern = Some true
       /\ (min_similarity <= avg_similarity r)%Q)).
Proof.
  unfold search_where, sql_ge. rewrite <- Qle_bool_iff.
  destruct (sql_like (Some (conv_question r)) pattern) as [[|]|],
    (sql_like (conv_answer r) pattern) as [[|]|],
    (Qle_bool min_similarity (avg_similarity r)); simpl;
    (split; [intros ?|intros [?|[? ?]]]); try discriminate; auto.
Qed.


Example like_folds_ascii_case :
  sql_like (Some "Where is the Invoice?") "%INVOICE%" = Some true.
Proof. vm_compute. reflexivity. Qed.

Example like_underscore_is_a_wildcard :
  sql_like (Some "abc") "%a_c%" = Some true.
Proof. vm_compute. reflexivity. Qed.

(** C1 fails on the code: the store holds one record whose question
    contains "invoice" and whose average similarity is 0.1; a search for
    "invoice" with [min_similarity = 0.6] returns this record. *)
Theorem search_returns_question_match_below_threshold :
  exists row,
    fst (search_conversations example_saver "default" "invoice" (6 # 10)%Q
           (world_saved weak_logged)) = Return [row]
    /\ conv_question row = "Where is the invoice?"
    /\ (avg_similarity row == 1 # 10)%Q
    /\ ~ (6 # 10 <= avg_similarity row)%Q.
Proof.
  exists {| conv_id := 1; created_at := 1700000001;
            conv_question := "Where is the invoice?";
            conv_answer := Some "Within 30 days [1].";
            conv_num_contexts := 1; avg_similarity := (1 # 10)%Q;
            model_used := "llama-3.3-70b-versatile";
            session_id := "2023-11-14T22:13:20" |}.
  split; [vm_compute; reflexivity|]. split; [reflexivity|].
  split; [reflexivity|]. simpl. intros H. vm_compute in H. by apply H.
Qed.

(** ** Round trip *)


(** A source whose file and page are not integers is read back as saved. *)
Lemma stored_form_of_text (s : Source) :
  (forall z, file s <> PyInt z) -> (forall z, page s <> PyInt z) ->
  stored_form s = exact_form s.
Proof.
  intros Hf Hp. unfold stored_form, exact_form.
  destruct (file s) as [|z|f]; [|by destruct (Hf z)|];
    (destruct (page s) as [|z|p]; [|by destruct (Hp z)|]); reflexivity.
Qed.




(** ** Average similarity, missing stores, the stored model *)


Example avg_similarity_two_chunks :
  (average_similarity (extract_sources [chunk_a; chunk_b]) == 75 # 100)%Q.
Proof. reflexivity. Qed.

(** C9. For a store name under which neither a database nor a
    configuration file exists, [load_conversations_sqlite] and
    [search_conversations] return the empty list and [get_sqlite_stats]
    the empty dictionary, all without raising and without touching the
    world, while [load_config_json] raises [FileNotFoundError]. *)
Theorem missing_store_is_empty_except_config
    self name query_text min_similarity limit w :
  files w !! conversations_db_path self name = None ->
  files w !! config_path self name = None ->
  load_conversations_sqlite self name limit w = (Return [], w)
  /\ search_conversations self name query_text min_similarity w = (Return [], w)
  /\ get_sqlite_stats self name w = (Return ∅, w)
  /\ load_config_json self name w
     = (Raise (FileNotFoundError (config_path self name)), w).
Proof.
  intros Hdb Hcfg. unfold_store. rewrite Hdb, Hcfg. auto.
Qed.

(** C9 on a name that a world without files has never seen. *)
Lemma missing_store_witness :
  files world0 !! conversations_db_path example_saver "archive" = None
  /\ files world0 !! config_path example_saver "archive" = None
  /\ load_conversations_sqlite example_saver "archive" 20 world0 = (Return [], world0)
  /\ search_conversations example_saver "archive" "invoice" (6 # 10)%Q world0
     = (Return [], world0)
  /\ get_sqlite_stats example_saver "archive" world0 = (Return ∅, world0)
  /\ load_config_json example_saver "archive" world0
     = (Raise (FileNotFoundError (config_path example_saver "archive")), world0).
Proof.
  assert (H1 : files world0 !! conversations_db_path example_saver "archive" = None)
    by reflexivity.
  assert (H2 : files world0 !! config_path example_saver "archive" = None)
    by reflexivity.
  repeat (split; [assumption|]).
  exact (missing_store_is_empty_except_config example_saver "archive" "invoice"
           (6 # 10)%Q 20 world0 H1 H2).
Defined.

(** A saved configuration is read back; only a missing one raises. *)
Lemma load_config_json_after_save self rag name w :
  exists cfg w' path,
    save_config_json self rag name w = (Return path, w')
    /\ load_config_json self name w' = (Return cfg, w')
    /\ cfg_name cfg = name
    /\ cfg_llm_default_model cfg = "llama-3.3-70b-versatile".
Proof.
  eexists _, _, _. split.
  { unfold save_config_json, now, write_file, ret, bind. reflexivity. }
  unfold load_config_json, read_file, bind. simpl.
  rewrite lookup_insert_eq. auto.
Qed.

(** C10. Saving a log into a store that is missing or holds a database
    adds one row per entry, and [model_used] of every added row is the
    constant "llama-3.3-70b-versatile": a log entry has no field for the
    model, so the model of the request is not in the store. *)
Theorem persisted_model_is_constant self rag name session_id w db0 :
  store_database w (conversations_db_path self name) = Some db0 ->
  exists w' db' rows,
    save_conversations_sqlite self rag name session_id w = (Return tt, w')
    /\ files w' !! conversations_db_path self name = Some (DbFile db')
    /\ conversations db' = conversations db0 ++ rows
    /\ length rows = length (conversation_history rag)
    /\ Forall (fun row => model_used row = "llama-3.3-70b-versatile") rows.
Proof.
  intros Hstore.
  destruct (save_conversations_sqlite_spec self rag name session_id w db0 Hstore)
    as (w1 & db' & rows & session & Hsave & Hfile & _ & _ & Hc & _ & Hfl & _).
  exists w1, db', rows. repeat split; auto.
  - symmetry. by eapply Forall2_length.
  - clear Hc. induction Hfl as [|e row h rs Hrow _ IH]; constructor; auto.
    by destruct Hrow as (_ & _ & _ & _ & Hm & _).
Qed.

(** C10 on the example log and a world without files. *)
Lemma persisted_model_witness :
  store_database world0 (conversations_db_path example_saver "default")
  = Some empty_database
  /\ exists w' db' rows,
    save_conversations_sqlite example_saver example_logged "default" None world0
    = (Return tt, w')
    /\ files w' !! conversations_db_path example_saver "default" = Some (DbFile db')
    /\ conversations db' = conversations empty_database ++ rows
    /\ length rows = length (conversation_history example_logged)
    /\ Forall (fun row => model_used row = "llama-3.3-70b-versatile") rows.
Proof.
  assert (H1 : store_database world0 (conversations_db_path example_saver "default")
               = Some empty_database) by reflexivity.
  split; [assumption|].
  exact (persisted_model_is_constant example_saver example_logged "default" None
           world0 empty_database H1).
Defined.

(** The model a caller asks for is in the response, not in the store. *)
Example model_override_is_not_persisted :
  exists r rag' w1,
    query (example_rag groq_answering [chunk_a]) "When are invoices due?" 5
      (1 # 2)%Q override_kwargs world0 = (Return (r, rag'), w1)
    /\ r !! "model" = Some (VStr "mixtral-8x7b-32768")
    /\ stored_models
         (snd (save_conversations_sqlite example_saver rag' "default" None w1))
         (conversations_db_path example_saver "default")
       = ["llama-3.3-70b-versatile"].
Proof.
  eexists _, _, _. split.
  - eapply query_with_contexts; [reflexivity|discriminate|].
    by apply generate_response_returns.
  - split; [by simplify_map_eq|]. vm_compute. reflexivity.
Qed.

(** ** The store at work *)

Example stats_after_one_save :
  match fst (get_sqlite_stats example_saver "default" (world_saved example_logged)) with
  | Return stats =>
      stats !! "total_conversations" = Some (StatInt 1)
      /\ stats !! "top_sources" = Some (StatTop [(PyStr "terms.pdf", 1)])
  | Raise _ => False
  end.
Proof. vm_compute. split; reflexivity. Qed.

Example load_is_newest_first :
  match fst (load_conversations_sqlite example_saver "default" 1
               (world_saved (append_history example_logged weak_entry))) with
  | Return loaded => map loaded_question loaded = ["Where is the invoice?"]
  | Raise _ => False
  end.
Proof. vm_compute. reflexivity. Qed.

(** * Further properties *)

(** ** The conversation store: how saves compose *)

(** How a save runs: the schema step, the session label, the loop over the
    log on the database found, and the write of the result. *)
Lemma save_conversations_sqlite_run self rag name session_id w db0 :
  store_database w (conversations_db_path self name) = Some db0 ->
  exists w1 db' w',
    clock w1 = clock w
    /\ clock_reads w1 = (session_reads session_id + clock_reads w)%nat
    /\ save_loop (session_label session_id w) (conversation_history rag) db0 w1
       = (Return db', advance w1 (length (conversation_history rag)))
    /\ save_conversations_sqlite self rag name session_id w = (Return tt, w')
    /\ files w' !! conversations_db_path self name = Some (DbFile db')
    /\ (forall p, p <> conversations_db_path self name -> files w' !! p = files w !! p)
    /\ completion_calls w' = completion_calls w.
Proof.
  intros Hstore.
  set (path := conversations_db_path self name) in *.
  assert (exists w0, _init_sqlite_db path w = (Return tt, w0)
            /\ connect path w0 = (Return (Some db0), w0)
            /\ completion_calls w0 = completion_calls w
            /\ clock w0 = clock w /\ clock_reads w0 = clock_reads w
            /\ (forall p, p <> path -> files w0 !! p = files w !! p))
    as (w0 & Hinit & Hconn & Hcalls & Hclock & Hreads & Hother).
  { unfold store_database in Hstore.
    unfold _init_sqlite_db, connect, bind, read_file.
    destruct (files w !! path) as [[db|cfg]|] eqn:Hf; [| done |].
    - injection Hstore as ->. exists w. simpl. rewrite Hf. by simpl.
    - injection Hstore as <-.
      exists (with_file w path (DbFile empty_database)). simpl.
      rewrite lookup_insert_eq. repeat split; auto.
      intros p Hp. by rewrite lookup_insert_ne. }
  assert (Hsess : session_or_now session_id w0
                  = (Return (session_label session_id w), 
                     advance w0 (session_reads session_id))).
  { unfold session_or_now, session_label, session_reads.
    destruct session_id as [[|c s]|]; unfold bind, now, ret, advance; simpl.
    - by rewrite Hclock, Hreads.
    - by destruct w0.
    - by rewrite Hclock, Hreads. }
  destruct (save_loop_spec (session_label session_id w) (conversation_history rag)
              db0 (advance w0 (session_reads session_id)))
    as (db' & rows & srs & Hrun & _).
  eexists (advance w0 (session_reads session_id)), db', _.
  split; [exact Hclock|]. split; [simpl; by rewrite Hreads|].
  split; [exact Hrun|]. split.
  { unfold save_conversations_sqlite. fold path.
    unfold bind at 1. rewrite Hinit.
    unfold bind at 1. rewrite Hconn.
    unfold bind at 1. rewrite Hsess.
    unfold bind at 1. simpl default. rewrite Hrun.
    reflexivity. }
  simpl. rewrite lookup_insert_eq. split; [done|]. split; [|done].
  intros p Hp. rewrite lookup_insert_ne by done. by apply Hother.
Qed.





Lemma stored_fields_questions session history rows :
  Forall2 (stored_fields session) history rows ->
  map conv_question rows = map question history
  /\ map conv_answer rows = map answer history
  /\ map conv_num_contexts rows = map num_contexts history
  /\ Forall (fun r => session_id r = session) rows.
Proof.
  induction 1 as [|e row h rs (Hq & Ha & Hn & _ & _ & Hs) _ (IH1 & IH2 & IH3 & IH4)];
    simpl; [by repeat split|].
  rewrite Hq, Ha, Hn, IH1, IH2, IH3. repeat split; auto.
Qed.

(** X2. Saving does not empty the log and does not look for what is
    stored: saving the same log twice stores every entry twice, under
    different rowids. *)
Theorem saving_twice_duplicates self rag name sid1 sid2 w db0 :
  store_database w (conversations_db_path self name) = Some db0 ->
  exists w1 w2 db2 rows1 rows2,
    save_conversations_sqlite self rag name sid1 w = (Return tt, w1)
    /\ save_conversations_sqlite self rag name sid2 w1 = (Return tt, w2)
    /\ files w2 !! conversations_db_path self name = Some (DbFile db2)
    /\ conversations db2 = conversations db0 ++ rows1 ++ rows2
    /\ map conv_question rows1 = map question (conversation_history rag)
    /\ map conv_question rows2 = map question (conversation_history rag)
    /\ map conv_answer rows1 = map answer (conversation_history rag)
    /\ map conv_answer rows2 = map answer (conversation_history rag)
    /\ map conv_id (rows1 ++ rows2)
       = seqZ (conversations_seq db0 + 1) (2 * len (conversation_history rag)).
Proof.
  intros Hstore.
  destruct (save_conversations_sqlite_run self rag name sid1 w db0 Hstore)
    as (wa & db1 & w1 & _ & _ & Hrun1 & Hsave1 & Hfile1 & _ & _).
  destruct (save_loop_spec (session_label sid1 w) (conversation_history rag) db0 wa)
    as (db1' & rows1 & srs1 & Hrun1' & Hc1 & _ & _ & Hq1 & Hid1 & _ & Hfl1 & _).
  rewrite Hrun1 in Hrun1'. injection Hrun1' as <-.
  assert (Hstore1 : store_database w1 (conversations_db_path self name) = Some db1).
  { unfold store_database. by rewrite Hfile1. }
  destruct (save_conversations_sqlite_run self rag name sid2 w1 db1 Hstore1)
    as (wb & db2 & w2 & _ & _ & Hrun2 & Hsave2 & Hfile2 & _ & _).
  destruct (save_loop_spec (session_label sid2 w1) (conversation_history rag) db1 wb)
    as (db2' & rows2 & srs2 & Hrun2' & Hc2 & _ & _ & Hq2 & Hid2 & _ & Hfl2 & _).
  rewrite Hrun2 in Hrun2'. injection Hrun2' as <-.
  apply stored_fields_questions in Hfl1 as (? & ? & _).
  apply stored_fields_questions in Hfl2 as (? & ? & _).
  exists w1, w2, db2, rows1, rows2. repeat (split; [done|]).
  split. { rewrite Hc2, Hc1. by rewrite <- app_assoc. }
  repeat (split; [done|]).
  rewrite map_app, Hid1, Hid2, Hq1.
  replace (2 * len (conversation_history rag))
    with (len (conversation_history rag) + len (conversation_history rag)) by lia.
  rewrite seqZ_app by (unfold len; lia).
  do 2 f_equal. lia.
Qed.

(** The property above on an example. *)
Lemma saving_twice_duplicates_witness :
  (store_database world0 (conversations_db_path example_saver "default") = Some empty_database)
  /\ (exists w1 w2 db2 rows1 rows2,
    save_conversations_sqlite example_saver example_logged "default" None world0 = (Return tt, w1)
    /\ save_conversations_sqlite example_saver example_logged "default" None w1 = (Return tt, w2)
    /\ files w2 !! conversations_db_path example_saver "default" = Some (DbFile db2)
    /\ conversations db2 = conversations empty_database ++ rows1 ++ rows2
    /\ map conv_question rows1 = map question (conversation_history example_logged)
    /\ map conv_question rows2 = map question (conversation_history example_logged)
    /\ map conv_answer rows1 = map answer (conversation_history example_logged)
    /\ map conv_answer rows2 = map answer (conversation_history example_logged)
    /\ map conv_id (rows1 ++ rows2)
       = seqZ (conversations_seq empty_database + 1) (2 * len (conversation_history example_logged))).
Proof.
  assert (H1 : store_database world0 (conversations_db_path example_saver "default") = Some empty_database)
    by (reflexivity).
  split; [exact H1|].
  exact (saving_twice_duplicates example_saver example_logged "default" None None world0 empty_database H1).
Defined.



(** X4. All rows added by one save carry one session label: the label
    given, or, when none or the empty string is given, the clock's text at
    the start of the save. *)
Theorem one_session_label_per_save self rag name sid w db0 :
  store_database w (conversations_db_path self name) = Some db0 ->
  exists w' db' rows label,
    save_conversations_sqlite self rag name sid w = (Return tt, w')
    /\ files w' !! conversations_db_path self name = Some (DbFile db')
    /\ conversations db' = conversations db0 ++ rows
    /\ Forall (fun r => session_id r = label) rows
    /\ (forall s, sid = Some s -> s <> "" -> label = s)
    /\ (sid = None \/ sid = Some "" -> label = isoformat (clock w (clock_reads w))).
Proof.
  intros Hstore.
  destruct (save_conversations_sqlite_run self rag name sid w db0 Hstore)
    as (wa & db1 & w1 & _ & _ & Hrun & Hsave & Hfile & _ & _).
  destruct (save_loop_spec (session_label sid w) (conversation_history rag) db0 wa)
    as (db1' & rows & srs & Hrun' & Hc & _ & _ & _ & _ & _ & Hfl & _).
  rewrite Hrun in Hrun'. injection Hrun' as <-.
  apply stored_fields_questions in Hfl as (_ & _ & _ & Hsess).
  exists w1, db1, rows, (session_label sid w). repeat (split; [done|]).
  split.
  - intros s -> Hs. by destruct s.
  - by intros [-> | ->].
Qed.

(** The property above on an example. *)
Lemma one_session_label_per_save_witness :
  (store_database world0 (conversations_db_path example_saver "default") = Some empty_database)
  /\ (exists w' db' rows label,
    save_conversations_sqlite example_saver example_logged "default" (Some "session-1") world0 = (Return tt, w')
    /\ files w' !! conversations_db_path example_saver "default" = Some (DbFile db')
    /\ conversations db' = conversations empty_database ++ rows
    /\ Forall (fun r => session_id r = label) rows
    /\ (forall s, (Some "session-1") = Some s -> s <> "" -> label = s)
    /\ ((Some "session-1") = None \/ (Some "session-1") = Some "" -> label = isoformat (clock world0 (clock_reads world0)))).
Proof.
  assert (H1 : store_database world0 (conversations_db_path example_saver "default") = Some empty_database)
    by (reflexivity).
  split; [exact H1|].
  exact (one_session_label_per_save example_saver example_logged "default" (Some "session-1") world0 empty_database H1).
Defined.







(** X7. [clear_history] empties the log and keeps the collaborators; the
    statistics of the session are then zeros, and a save after it writes
    the database it found, so nothing of the cleared conversations is
    persisted. *)
Theorem clear_history_then_save self saver name sid w db0 :
  store_database w (conversations_db_path saver name) = Some db0 ->
  conversation_history (clear_history self) = []
  /\ get_stats (clear_history self) = (0, 0, 0%Q)
  /\ vector_store (clear_history self) = vector_store self
  /\ embedding_manager (clear_history self) = embedding_manager self
  /\ llm_client (clear_history self) = llm_client self
  /\ retriever (clear_history self) = retriever self
  /\ exists w',
       save_conversations_sqlite saver (clear_history self) name sid w
       = (Return tt, w')
       /\ files w' !! conversations_db_path saver name = Some (DbFile db0).
Proof.
  intros Hstore. repeat (split; [reflexivity|]).
  destruct (save_conversations_sqlite_run saver (clear_history self) name sid w db0
              Hstore)
    as (wa & db1 & w1 & _ & _ & Hrun & Hsave & Hfile & _ & _).
  simpl in Hrun. injection Hrun as <-. by exists w1.
Qed.

(** The property above on an example. *)
Lemma clear_history_then_save_witness :
  (store_database world0 (conversations_db_path example_saver "default") = Some empty_database)
  /\ (conversation_history (clear_history example_logged) = []
  /\ get_stats (clear_history example_logged) = (0, 0, 0%Q)
  /\ vector_store (clear_history example_logged) = vector_store example_logged
  /\ embedding_manager (clear_history example_logged) = embedding_manager example_logged
  /\ llm_client (clear_history example_logged) = llm_client example_logged
  /\ retriever (clear_history example_logged) = retriever example_logged
  /\ exists w',
       save_conversations_sqlite example_saver (clear_history example_logged) "default" None world0
       = (Return tt, w')
       /\ files w' !! conversations_db_path example_saver "default" = Some (DbFile empty_database)).
Proof.
  assert (H1 : store_database world0 (conversations_db_path example_saver "default") = Some empty_database)
    by (reflexivity).
  split; [exact H1|].
  exact (clear_history_then_save example_logged example_saver "default" None world0 empty_database H1).
Defined.

(** X8. Saving an empty log into a missing store creates the store:
    loading then returns the empty list, and the statistics are a
    dictionary with zero conversations, zero averages and no sources, not
    the empty dictionary of a missing store. *)
Theorem empty_log_creates_an_empty_store self rag name sid limit w :
  files w !! conversations_db_path self name = None ->
  conversation_history rag = [] ->
  exists w' stats q1 q2,
    save_conversations_sqlite self rag name sid w = (Return tt, w')
    /\ files w' !! conversations_db_path self name = Some (DbFile empty_database)
    /\ load_conversations_sqlite self name limit w' = (Return [], w')
    /\ get_sqlite_stats self name w' = (Return stats, w')
    /\ stats !! "total_conversations" = Some (StatInt 0)
    /\ stats !! "avg_similarity_score" = Some (StatFloat q1) /\ (q1 == 0)%Q
    /\ stats !! "avg_contexts_per_query" = Some (StatFloat q2) /\ (q2 == 0)%Q
    /\ stats !! "top_sources" = Some (StatTop []).
Proof.
  intros Hnone Hempty.
  assert (Hstore : store_database w (conversations_db_path self name)
                   = Some empty_database).
  { unfold store_database. by rewrite Hnone. }
  destruct (save_conversations_sqlite_run self rag name sid w _ Hstore)
    as (wa & db1 & w1 & _ & _ & Hrun & Hsave & Hfile & _ & _).
  rewrite Hempty in Hrun. simpl in Hrun. injection Hrun as <-.
  exists w1. eexists _, _, _. split; [exact Hsave|]. split; [exact Hfile|].
  split.
  { rewrite (load_conversations_sqlite_spec self name limit w1 _ Hfile).
    simpl. unfold sql_limit. destruct (limit <? 0); [done|]. by rewrite take_nil. }
  split.
  { unfold_store. rewrite Hfile. reflexivity. }
  simpl. repeat split; by simplify_map_eq.
Qed.

(** The property above on an example. *)
Lemma empty_log_creates_an_empty_store_witness :
  (files world0 !! conversations_db_path example_saver "default" = None)
  /\ (conversation_history (example_rag groq_answering []) = [])
  /\ (exists w' stats q1 q2,
    save_conversations_sqlite example_saver (example_rag groq_answering []) "default" None world0 = (Return tt, w')
    /\ files w' !! conversations_db_path example_saver "default" = Some (DbFile empty_database)
    /\ load_conversations_sqlite example_saver "default" 20 w' = (Return [], w')
    /\ get_sqlite_stats example_saver "default" w' = (Return stats, w')
    /\ stats !! "total_conversations" = Some (StatInt 0)
    /\ stats !! "avg_similarity_score" = Some (StatFloat q1) /\ (q1 == 0)%Q
    /\ stats !! "avg_contexts_per_query" = Some (StatFloat q2) /\ (q2 == 0)%Q
    /\ stats !! "top_sources" = Some (StatTop [])).
Proof.
  assert (H1 : files world0 !! conversations_db_path example_saver "default" = None)
    by (reflexivity).
  assert (H2 : conversation_history (example_rag groq_answering []) = [])
    by (reflexivity).
  split; [exact H1|].
  split; [exact H2|].
  exact (empty_log_creates_an_empty_store example_saver (example_rag groq_answering []) "default" None 20 world0 H1 H2).
Defined.

(** ** Files of the store *)

Lemma list_ascii_of_string_app (a b : string) :
  list_ascii_of_string (a +:+ b) = list_ascii_of_string a ++ list_ascii_of_string b.
Proof.
  induction a as [|c a IH]; [reflexivity|].
  change (c :: list_ascii_of_string (a +:+ b)
          = c :: (list_ascii_of_string a ++ list_ascii_of_string b)).
  by rewrite IH.
Qed.



(** The joined path is the second part behind a prefix. *)
Lemma path_join_suffix (a b : string) :
  b <> "" -> exists pre, path_join a b = pre +:+ b.
Proof.
  intros Hb. destruct b as [|c b]; [done|]. unfold path_join.
  destruct (bool_decide (c = "/"%char)); [by exists ""|].
  destruct (bool_decide (a = "") || ends_with_slash a).
  - by exists a.
  - exists (a +:+ "/"). by rewrite <- string_app_assoc.
Qed.


Lemma last_of_path (pre name : string) (suffix : list ascii) (c : ascii) :
  last (list_ascii_of_string pre ++ list_ascii_of_string name ++ suffix ++ [c])
  = Some c.
Proof. by rewrite !app_assoc, last_snoc. Qed.

Lemma config_path_last self name :
  last (list_ascii_of_string (config_path self name)) = Some "n"%char.
Proof.
  unfold config_path.
  destruct (path_join_suffix (save_dir self) (name +:+ "_config.json")) as [pre ->].
  { by destruct name. }
  rewrite !list_ascii_of_string_app.
  apply (last_of_path pre name (list_ascii_of_string "_config.jso")).
Qed.

Lemma conversations_db_path_last self name :
  last (list_ascii_of_string (conversations_db_path self name)) = Some "b"%char.
Proof.
  unfold conversations_db_path.
  destruct (path_join_suffix (save_dir self) (name +:+ "_conversations.db"))
    as [pre ->].
  { by destruct name. }
  rewrite !list_ascii_of_string_app.
  apply (last_of_path pre name (list_ascii_of_string "_conversations.d")).
Qed.

Lemma config_path_is_no_database_path self name name' :
  config_path self name <> conversations_db_path self name'.
Proof.
  intros H. pose proof (config_path_last self name) as Hn.
  rewrite H, conversations_db_path_last in Hn. discriminate.
Qed.



(** What the three readers of a store return depends on its file only. *)
Lemma store_readers_depend_on_file self name limit query_text min_similarity w w' :
  files w' !! conversations_db_path self name
  = files w !! conversations_db_path self name ->
  fst (load_conversations_sqlite self name limit w')
  = fst (load_conversations_sqlite self name limit w)
  /\ fst (search_conversations self name query_text min_similarity w')
     = fst (search_conversations self name query_text min_similarity w)
  /\ fst (get_sqlite_stats self name w') = fst (get_sqlite_stats self name w).
Proof.
  intros H. unfold_store. rewrite H.
  destruct (files w !! conversations_db_path self name) as [[db|cfg]|]; done.
Qed.

(** X9. The snapshot written by [save_config_json] is what [load_config_json]
    reads, and writing it leaves every conversation store as it was. *)
Theorem config_round_trip self rag name name' limit query_text min_similarity w :
  exists w' cfg,
    save_config_json self rag name w = (Return (config_path self name), w')
    /\ load_config_json self name w' = (Return cfg, w')
    /\ cfg_name cfg = name
    /\ cfg_created_at cfg = isoformat (clock w (clock_reads w))
    /\ cfg_vs_path cfg = persist_directory (vector_store rag)
    /\ cfg_vs_collection_name cfg = collection_name (vector_store rag)
    /\ cfg_vs_total_documents cfg = collection_count (vector_store rag)
    /\ cfg_embedding_model_name cfg = model_name (embedding_manager rag)
    /\ cfg_embedding_dim cfg = embedding_dimension (embedding_manager rag)
    /\ cfg_llm_provider cfg = "groq"
    /\ cfg_llm_default_model cfg = "llama-3.3-70b-versatile"
    /\ fst (load_conversations_sqlite self name' limit w')
       = fst (load_conversations_sqlite self name' limit w)
    /\ fst (search_conversations self name' query_text min_similarity w')
       = fst (search_conversations self name' query_text min_similarity w)
    /\ fst (get_sqlite_stats self name' w') = fst (get_sqlite_stats self name' w).
Proof.
  eexists _, _. split.
  { unfold save_config_json, now, write_file, ret, bind. reflexivity. }
  split.
  { unfold load_config_json, read_file, bind. simpl.
    rewrite lookup_insert_eq. reflexivity. }
  repeat (split; [reflexivity|]).
  apply store_readers_depend_on_file. simpl.
  apply lookup_insert_ne, config_path_is_no_database_path.
Qed.

(** X10. A later snapshot under the same name replaces the earlier one:
    loading returns the descriptors of the system saved last and the
    clock's text of the second save. *)
Theorem config_is_overwritten self rag1 rag2 name w :
  exists w1 w2 cfg,
    save_config_json self rag1 name w = (Return (config_path self name), w1)
    /\ save_config_json self rag2 name w1 = (Return (config_path self name), w2)
    /\ load_config_json self name w2 = (Return cfg, w2)
    /\ cfg_vs_path cfg = persist_directory (vector_store rag2)
    /\ cfg_vs_collection_name cfg = collection_name (vector_store rag2)
    /\ cfg_vs_total_documents cfg = collection_count (vector_store rag2)
    /\ cfg_embedding_model_name cfg = model_name (embedding_manager rag2)
    /\ cfg_embedding_dim cfg = embedding_dimension (embedding_manager rag2)
    /\ cfg_created_at cfg = isoformat (clock w (S (clock_reads w))).
Proof.
  eexists _, _, _. split.
  { unfold save_config_json, now, write_file, ret, bind. reflexivity. }
  split.
  { unfold save_config_json, now, write_file, ret, bind. reflexivity. }
  split.
  { unfold load_config_json, read_file, bind. simpl.
    rewrite lookup_insert_eq. reflexivity. }
  repeat split.
Qed.



(** ** Statistics of the store *)


Lemma count_group_keys key groups :
  NoDup (map fst groups) ->
  NoDup (map fst (count_group key groups))
  /\ (forall k, k ∈ map fst (count_group key groups) <-> k = key \/ k ∈ map fst groups).
Proof.
  induction groups as [|[k c] t IH]; intros Hnd; simpl.
  - split; [apply NoDup_singleton|].
    intros k. rewrite elem_of_cons, elem_of_nil. tauto.
  - apply NoDup_cons in Hnd as [Hk Ht]. destruct (decide (k = key)) as [->|Hne]; simpl.
    + split; [by apply NoDup_cons|]. intros k. rewrite !elem_of_cons. tauto.
    + destruct (IH Ht) as [IH1 IH2]. split.
      * apply NoDup_cons. split; [|done]. rewrite IH2. intros [->|?]; done.
      * intros k'. rewrite !elem_of_cons, IH2. tauto.
Qed.

Lemma count_group_count key groups k :
  group_count k (count_group key groups)
  = group_count k groups + (if decide (k = key) then 1 else 0).
Proof.
  induction groups as [|[k' c] t IH]; simpl.
  - destruct (decide (key = k)), (decide (k = key)); congruence || lia.
  - destruct (decide (k' = key)) as [->|Hne]; simpl.
    + destruct (decide (key = k)), (decide (k = key)); congruence || lia.
    + destruct (decide (k' = k)) as [->|Hne'].
      * destruct (decide (k = key)); [congruence|lia].
      * exact IH.
Qed.

Lemma count_citations_snoc f rows s :
  count_citations f (rows ++ [s])
  = count_citations f rows + (if decide (f = source_file s) then 1 else 0).
Proof.
  unfold count_citations, len. rewrite filter_app, length_app.
  destruct (decide (f = source_file s)) as [->|Hne].
  - rewrite filter_cons_True by done. simpl. lia.
  - rewrite filter_cons_False by congruence. simpl. lia.
Qed.

Lemma group_by_fold rows groups0 rows0 :
  NoDup (map fst groups0) ->
  (forall k, group_count k groups0 = count_citations k rows0) ->
  (forall k, k ∈ map fst groups0 <-> k ∈ map source_file rows0) ->
  let groups := fold_left (fun g s => count_group (source_file s) g) rows groups0 in
  NoDup (map fst groups)
  /\ (forall k, group_count k groups = count_citations k (rows0 ++ rows))
  /\ (forall k, k ∈ map fst groups <-> k ∈ map source_file (rows0 ++ rows)).
Proof.
  revert groups0 rows0. induction rows as [|s rows IH]; intros groups0 rows0 Hnd Hc Hk.
  - simpl. rewrite app_nil_r. auto.
  - simpl. destruct (count_group_keys (source_file s) groups0 Hnd) as [Hnd' Hk'].
    specialize (IH (count_group (source_file s) groups0) (rows0 ++ [s]) Hnd').
    rewrite <- app_assoc in IH. simpl in IH. apply IH.
    + intros k. rewrite count_group_count, count_citations_snoc, Hc. done.
    + intros k. rewrite Hk', map_app, elem_of_app, Hk. simpl.
      rewrite list_elem_of_singleton. tauto.
Qed.

Lemma group_count_elem k c groups :
  NoDup (map fst groups) -> (k, c) ∈ groups -> group_count k groups = c.
Proof.
  induction groups as [|[k' c'] t IH]; intros Hnd Hin; [by apply elem_of_nil in Hin|].
  simpl in *. apply NoDup_cons in Hnd as [Hk Ht].
  apply elem_of_cons in Hin as [[= <- <-]|Hin].
  - by rewrite decide_True.
  - rewrite decide_False; [by apply IH|].
    intros ->. apply Hk. apply list_elem_of_fmap. by exists (k, c).
Qed.

(** The groups of [GROUP BY source_file]: one per cited file, with the
    number of rows that cite it. *)
Lemma group_by_source_file_spec (rows : list SourceRow) :
  NoDup (map fst (group_by_source_file rows))
  /\ (forall k c, (k, c) ∈ group_by_source_file rows ->
                  c = count_citations k rows /\ 0 < c)
  /\ (forall k, k ∈ map fst (group_by_source_file rows) <-> k ∈ map source_file rows).
Proof.
  destruct (group_by_fold rows [] []) as (Hnd & Hc & Hk).
  { constructor. } { done. } { done. }
  simpl in Hc, Hk. split; [exact Hnd|]. split; [|exact Hk].
  intros k c Hin. pose proof (group_count_elem k c _ Hnd Hin) as Hg.
  rewrite Hc in Hg. split; [done|].
  assert (k ∈ map source_file rows) as Hcited.
  { apply Hk. apply list_elem_of_fmap. by exists (k, c). }
  apply list_elem_of_fmap in Hcited as (s & -> & Hs).
  subst c. unfold count_citations, len.
  assert (s ∈ filter (fun s0 => source_file s0 = source_file s) rows)
    by (by apply list_elem_of_filter).
  destruct (filter _ rows); [by apply elem_of_nil in H|simpl; lia].
Qed.

Lemma insert_by_count_perm g l : insert_by_count g l ≡ₚ g :: l.
Proof.
  induction l as [|x l IH]; simpl; [done|].
  destruct (snd x <? snd g); [done|]. rewrite IH. apply Permutation_swap.
Qed.

Lemma insert_by_count_sorted g l :
  most_cited_first l -> most_cited_first (insert_by_count g l).
Proof.
  induction l as [|x l IH]; simpl.
  - intros _. split; [constructor|done].
  - intros [Hall Hl]. destruct (snd x <? snd g) eqn:E.
    + apply Z.ltb_lt in E. simpl. repeat split; auto.
      constructor; [lia|]. eapply Forall_impl; [exact Hall|]. simpl. intros; lia.
    + apply Z.ltb_ge in E. simpl. split; [|by apply IH].
      rewrite insert_by_count_perm. by constructor.
Qed.

Lemma order_by_count_desc_spec groups :
  order_by_count_desc groups ≡ₚ groups /\ most_cited_first (order_by_count_desc groups).
Proof.
  unfold order_by_count_desc.
  assert (forall acc, most_cited_first acc ->
            fold_left (fun sorted g => insert_by_count g sorted) groups acc
            ≡ₚ acc ++ groups
            /\ most_cited_first
                 (fold_left (fun sorted g => insert_by_count g sorted) groups acc))
    as H.
  { induction groups as [|g t IH]; intros acc Hacc; simpl.
    - by rewrite app_nil_r.
    - destruct (IH (insert_by_count g acc) (insert_by_count_sorted g acc Hacc))
        as [Hp Hs].
      split; [|done]. rewrite Hp, insert_by_count_perm. simpl.
      apply Permutation_middle. }
  destruct (H [] I) as [Hp Hs]. by split.
Qed.

(** X12. The statistics of an existing store: the number of conversations, and
    at most five cited files, each with the number of source rows that
    cite it, the most cited ones, in falling order of count. *)
Theorem stats_count_citations self name w db :
  files w !! conversations_db_path self name = Some (DbFile db) ->
  exists stats top rest,
    get_sqlite_stats self name w = (Return stats, w)
    /\ stats !! "total_conversations" = Some (StatInt (len (conversations db)))
    /\ stats !! "top_sources"
       = Some (StatTop (map (fun g => (text_value (fst g), snd g)) top))
    /\ (length top <= 5)%nat
    /\ most_cited_first (top ++ rest)
    /\ NoDup (map fst (top ++ rest))
    /\ (forall f, f ∈ map fst (top ++ rest) <-> f ∈ map source_file (source_rows db))
    /\ (forall f c, (f, c) ∈ top ++ rest ->
          c = count_citations f (source_rows db) /\ 0 < c)
    /\ (rest <> [] -> length top = 5%nat).
Proof.
  intros Hfile.
  set (groups := group_by_source_file (source_rows db)).
  set (sorted := order_by_count_desc groups).
  destruct (order_by_count_desc_spec groups) as [Hperm Hsorted]. fold sorted in Hperm, Hsorted.
  destruct (group_by_source_file_spec (source_rows db)) as (Hnd & Hcount & Hkeys).
  fold groups in Hnd, Hcount, Hkeys.
  eexists _, (take 5 sorted), (drop 5 sorted). split.
  { unfold_store. rewrite Hfile. reflexivity. }
  rewrite take_drop.
  split; [by simplify_map_eq|]. split; [by simplify_map_eq|].
  split; [rewrite length_take; lia|]. split; [exact Hsorted|].
  split; [by rewrite Hperm|]. split; [intros f; by rewrite Hperm|].
  split; [intros f c Hin; apply Hcount; by rewrite <- Hperm|].
  intros Hrest. rewrite length_take.
  destruct (decide (length sorted <= 5)%nat) as [Hle|Hgt]; [|lia].
  by rewrite drop_ge in Hrest.
Qed.

(** The property above on an example. *)
Lemma stats_count_citations_witness :
  (files world_weak !! conversations_db_path example_saver "default" = Some (DbFile weak_database))
  /\ (exists stats top rest,
    get_sqlite_stats example_saver "default" world_weak = (Return stats, world_weak)
    /\ stats !! "total_conversations" = Some (StatInt (len (conversations weak_database)))
    /\ stats !! "top_sources"
       = Some (StatTop (map (fun g => (text_value (fst g), snd g)) top))
    /\ (length top <= 5)%nat
    /\ most_cited_first (top ++ rest)
    /\ NoDup (map fst (top ++ rest))
    /\ (forall f, f ∈ map fst (top ++ rest) <-> f ∈ map source_file (source_rows weak_database))
    /\ (forall f c, (f, c) ∈ top ++ rest ->
          c = count_citations f (source_rows weak_database) /\ 0 < c)
    /\ (rest <> [] -> length top = 5%nat)).
Proof.
  assert (H1 : files world_weak !! conversations_db_path example_saver "default" = Some (DbFile weak_database))
    by (vm_compute; reflexivity).
  split; [exact H1|].
  exact (stats_count_citations example_saver "default" world_weak weak_database H1).
Defined.

(** ** Matching with [LIKE] *)

Lemma like_chars_percent (ps s : list ascii) :
  like_chars ("%"%char :: ps) s
  = like_chars ps s
    || match s with [] => false | _ :: s' => like_chars ("%"%char :: ps) s' end.
Proof. destruct s; reflexivity. Qed.

Lemma like_chars_literal (c : ascii) (ps s : list ascii) :
  c <> "%"%char -> c <> "_"%char ->
  like_chars (c :: ps) s
  = match s with
    | [] => false
    | d :: s' => bool_decide (lower c = lower d) && like_chars ps s'
    end.
Proof.
  intros H1 H2. simpl.
  rewrite (bool_decide_eq_false_2 _ H1), (bool_decide_eq_false_2 _ H2).
  by destruct s.
Qed.

Lemma like_chars_star (ps s : list ascii) :
  like_chars ("%"%char :: ps) s = true
  <-> exists a b, s = a ++ b /\ like_chars ps b = true.
Proof.
  induction s as [|d s IH]; rewrite like_chars_percent.
  - rewrite orb_false_r. split.
    + intros H. by exists [], [].
    + intros (a & b & Hs & Hb). symmetry in Hs.
      apply app_eq_nil in Hs as [_ ->]. exact Hb.
  - rewrite orb_true_iff, IH. split.
    + intros [H|(a & b & -> & Hb)].
      * by exists [], (d :: s).
      * by exists (d :: a), b.
    + intros ([|d' a] & b & Hs & Hb); simpl in Hs.
      * left. by rewrite Hs.
      * right. injection Hs as _ ->. by exists a, b.
Qed.

Lemma like_chars_prefix (q ps : list ascii) :
  Forall (fun c => c <> "%"%char /\ c <> "_"%char) q ->
  forall s,
    like_chars (q ++ ps) s = true
    <-> exists b r, s = b ++ r /\ map lower b = map lower q /\ like_chars ps r = true.
Proof.
  induction 1 as [|c q [H1 H2] _ IH]; intros s.
  - simpl. split.
    + intros H. by exists [], s.
    + intros ([|? ?] & r & -> & Hb & Hr); [done|discriminate].
  - change ((c :: q) ++ ps) with (c :: (q ++ ps)).
    rewrite like_chars_literal by done. destruct s as [|d s].
    + split; [done|]. intros ([|? ?] & r & Hs & Hb & _); discriminate.
    + rewrite andb_true_iff, bool_decide_eq_true, IH. split.
      * intros (Hcd & b & r & -> & Hb & Hr).
        exists (d :: b), r. simpl. by rewrite Hb, Hcd.
      * intros ([|d' b] & r & Hs & Hb & Hr); [discriminate|].
        simpl in Hs, Hb. injection Hs as -> ->. injection Hb as Hcd Hb.
        split; [done|]. by exists b, r.
Qed.

Lemma like_chars_only_percent (s : list ascii) : like_chars ["%"%char] s = true.
Proof. apply like_chars_star. exists s, []. by rewrite app_nil_r. Qed.

(** For a text without wildcards, [value LIKE '%text%'] holds exactly when
    the text occurs in the value up to the case of ASCII letters. *)
Lemma like_contains_nocase (query_text value : string) :
  no_wildcards query_text ->
  sql_like (Some value) ("%" +:+ query_text +:+ "%") = Some true
  <-> contains_nocase query_text value.
Proof.
  intros Hq. unfold sql_like, contains_nocase.
  rewrite !list_ascii_of_string_app.
  change (list_ascii_of_string "%") with ["%"%char].
  change (["%"%char] ++ list_ascii_of_string query_text ++ ["%"%char])
    with ("%"%char :: (list_ascii_of_string query_text ++ ["%"%char])).
  split.
  - intros [= H]. apply like_chars_star in H as (a & b' & -> & H).
    apply (like_chars_prefix _ _ Hq) in H as (b & r & -> & Hb & _).
    by exists a, b, r.
  - intros (a & b & c & -> & Hb). f_equal.
    apply like_chars_star. exists a, (b ++ c). split; [done|].
    apply (like_chars_prefix _ _ Hq). exists b, c.
    split; [done|]. split; [done|]. apply like_chars_only_percent.
Qed.

(** ** Searching by text *)



(** X14. With the empty text, which is the default, every record is returned,
    whatever the threshold. *)
Theorem search_with_empty_text_returns_all self name min_similarity w db :
  files w !! conversations_db_path self name = Some (DbFile db) ->
  exists rows,
    search_conversations self name "" min_similarity w = (Return rows, w)
    /\ rows ≡ₚ conversations db
    /\ newest_first rows.
Proof.
  intros Hfile.
  rewrite (search_conversations_spec self name "" min_similarity w db Hfile).
  eexists. split; [reflexivity|].
  split; [|apply order_by_created_at_desc_newest_first].
  rewrite order_by_created_at_desc_perm, filter_all; [done|].
  apply Forall_forall. intros r _. apply search_where_true. left.
  apply like_contains_nocase; [constructor|].
  exists [], [], (list_ascii_of_string (conv_question r)). by split.
Qed.

(** The property above on an example. *)
Lemma search_with_empty_text_returns_all_witness :
  (files world_weak !! conversations_db_path example_saver "default" = Some (DbFile weak_database))
  /\ (exists rows,
    search_conversations example_saver "default" "" (6 # 10)%Q world_weak = (Return rows, world_weak)
    /\ rows ≡ₚ conversations weak_database
    /\ newest_first rows).
Proof.
  assert (H1 : files world_weak !! conversations_db_path example_saver "default" = Some (DbFile weak_database))
    by (vm_compute; reflexivity).
  split; [exact H1|].
  exact (search_with_empty_text_returns_all example_saver "default" (6 # 10)%Q world_weak weak_database H1).
Defined.

(** ** Further properties of the orchestrator *)


(** The three ways a call of [query] ends once retrieval has returned. *)
Lemma query_cases self question top_k score_threshold kw w contexts :
  retrieve (retriever self) question top_k score_threshold = Return contexts ->
  let req := query_request question contexts kw in
  let model := default default_model (kw_model kw) in
  (contexts = []
   /\ query self question top_k score_threshold kw w
      = (Return (no_contexts_response question,
                 append_history self
                   (entry_of question (no_contexts_response question))), w))
  \/ (contexts <> []
      /\ exists a,
           client (llm_client self) (completion_calls w) req = Return a
           /\ query self question top_k score_threshold kw w
              = (Return (merged_response question contexts
                           (success_response a model contexts),
                         append_history self
                           (entry_of question
                              (merged_response question contexts
                                 (success_response a model contexts)))),
                 after_call w req))
  \/ (contexts <> []
      /\ exists e,
           client (llm_client self) (completion_calls w) req = Raise e
           /\ query self question top_k score_threshold kw w
              = (Return (merged_response question contexts
                           (degraded_response
                              ("Error generating response: " +:+ exn_str e) model),
                         append_history self
                           (entry_of question
                              (merged_response question contexts
                                 (degraded_response
                                    ("Error generating response: " +:+ exn_str e)
                                    model)))),
                 after_call w req)).
Proof.
  intros H req model. destruct contexts as [|c cs].
  - left. split; [done|]. by apply query_no_contexts.
  - right. destruct (client (llm_client self) (completion_calls w) req) as [a|e] eqn:Hc.
    + left. split; [done|]. exists a. split; [done|].
      eapply query_with_contexts; [exact H|done|].
      by apply generate_response_returns.
    + right. split; [done|]. exists e. split; [done|].
      eapply query_with_contexts; [exact H|done|].
      by apply generate_response_raises.
Qed.

Lemma entry_of_merged question contexts (r : Response) a l n :
  r !! "answer" = Some (VStr a) ->
  r !! "sources" = Some (VSources l) ->
  r !! "num_contexts_used" = Some (VInt n) ->
  entry_of question (merged_response question contexts r)
  = {| question := question; answer := Some a; sources := l; num_contexts := n |}.
Proof.
  intros Ha Hs Hn.
  destruct (merged_response_fields question contexts r) as (Ha' & Hs' & Hn' & _).
  unfold entry_of, get_answer, get_sources, get_num_contexts_used.
  by rewrite Ha', Hs', Hn', Ha, Hs, Hn.
Qed.

Lemma entry_of_no_contexts question :
  entry_of question (no_contexts_response question)
  = {| question := question; answer := Some no_relevant_answer; sources := [];
       num_contexts := 0 |}.
Proof.
  destruct (no_contexts_response_fields question) as (Ha & Hs & Hn & _).
  unfold entry_of, get_answer, get_sources, get_num_contexts_used.
  by rewrite Ha, Hs, Hn.
Qed.

Lemma entry_of_success question contexts a model :
  entry_of question (merged_response question contexts
                       (success_response a model contexts))
  = {| question := question; answer := Some a;
       sources := extract_sources contexts; num_contexts := len contexts |}.
Proof.
  destruct (success_response_fields a model contexts) as (Ha & Hs & _ & Hn & _).
  by apply entry_of_merged.
Qed.

Lemma entry_of_degraded question contexts a model :
  entry_of question (merged_response question contexts (degraded_response a model))
  = {| question := question; answer := Some a; sources := []; num_contexts := 0 |}.
Proof.
  destruct (degraded_response_fields a model) as (Ha & Hs & _ & Hn & _).
  by apply entry_of_merged.
Qed.


(** X15. [query] sends no request when nothing was retrieved and exactly one
    otherwise; the request carries the prompt built from the question and
    the contexts, and the model, temperature and length limit the caller
    gave, or "llama-3.3-70b-versatile", 0.3 and 1000. *)
Theorem query_sends_at_most_one_request
    self question top_k score_threshold kw w contexts :
  retrieve (retriever self) question top_k score_threshold = Return contexts ->
  exists r self' w',
    query self question top_k score_threshold kw w = (Return (r, self'), w')
    /\ completion_calls w'
       = completion_calls w
         ++ match contexts with
            | [] => []
            | _ :: _ =>
                [{| req_model := default "llama-3.3-70b-versatile" (kw_model kw);
                    req_prompt := build_prompt question contexts;
                    req_temperature := default (3 # 10)%Q (kw_temperature kw);
                    req_max_tokens := default 1000 (kw_max_tokens kw) |}]
            end
    /\ (contexts <> [] ->
        r !! "model" = Some (VStr (default "llama-3.3-70b-versatile" (kw_model kw)))
        /\ r !! "question" = Some (VStr question)
        /\ r !! "retrieved_contexts" = Some (VContexts contexts)).
Proof.
  intros H.
  destruct (query_cases self question top_k score_threshold kw w contexts H)
    as [[-> Hq]|[(Hne & a & Hc & Hq)|(Hne & e & Hc & Hq)]].
  - eexists _, _, _. split; [exact Hq|]. split; [by rewrite app_nil_r|done].
  - eexists _, _, _. split; [exact Hq|]. destruct contexts as [|c cs]; [done|].
    split; [reflexivity|]. intros _.
    destruct (merged_response_fields question (c :: cs)
                (success_response a (default default_model (kw_model kw)) (c :: cs)))
      as (_ & _ & _ & _ & ->).
    destruct (success_response_fields a (default default_model (kw_model kw)) (c :: cs))
      as (_ & _ & -> & _).
    unfold merged_response. repeat split; by simplify_map_eq.
  - eexists _, _, _. split; [exact Hq|]. destruct contexts as [|c cs]; [done|].
    split; [reflexivity|]. intros _.
    destruct (merged_response_fields question (c :: cs)
                (degraded_response ("Error generating response: " +:+ exn_str e)
                   (default default_model (kw_model kw))))
      as (_ & _ & _ & _ & ->).
    destruct (degraded_response_fields ("Error generating response: " +:+ exn_str e)
                (default default_model (kw_model kw)))
      as (_ & _ & -> & _).
    unfold merged_response. repeat split; by simplify_map_eq.
Qed.

(** The property above on an example. *)
Lemma query_sends_at_most_one_request_witness :
  (retrieve (retriever (example_rag groq_answering [chunk_a; chunk_b])) "When are invoices due?" 5 (1 # 2)%Q = Return [chunk_a; chunk_b])
  /\ (exists r self' w',
    query (example_rag groq_answering [chunk_a; chunk_b]) "When are invoices due?" 5 (1 # 2)%Q override_kwargs world0 = (Return (r, self'), w')
    /\ completion_calls w'
       = completion_calls world0
         ++ match [chunk_a; chunk_b] with
            | [] => []
            | _ :: _ =>
                [{| req_model := default "llama-3.3-70b-versatile" (kw_model override_kwargs);
                    req_prompt := build_prompt "When are invoices due?" [chunk_a; chunk_b];
                    req_temperature := default (3 # 10)%Q (kw_temperature override_kwargs);
                    req_max_tokens := default 1000 (kw_max_tokens override_kwargs) |}]
            end
    /\ ([chunk_a; chunk_b] <> [] ->
        r !! "model" = Some (VStr (default "llama-3.3-70b-versatile" (kw_model override_kwargs)))
        /\ r !! "question" = Some (VStr "When are invoices due?")
        /\ r !! "retrieved_contexts" = Some (VContexts [chunk_a; chunk_b]))).
Proof.
  assert (H1 : retrieve (retriever (example_rag groq_answering [chunk_a; chunk_b])) "When are invoices due?" 5 (1 # 2)%Q = Return [chunk_a; chunk_b])
    by (reflexivity).
  split; [exact H1|].
  exact (query_sends_at_most_one_request (example_rag groq_answering [chunk_a; chunk_b]) "When are invoices due?" 5 (1 # 2)%Q override_kwargs world0 [chunk_a; chunk_b] H1).
Defined.

(** X16. When the service answers, the response carries its text unchanged, one
    source per context and the count of the contexts, and the log entry
    holds the same. *)
Theorem answered_query_is_logged_as_answered
    self question top_k score_threshold kw w contexts a :
  retrieve (retriever self) question top_k score_threshold = Return contexts ->
  contexts <> [] ->
  client (llm_client self) (completion_calls w) (query_request question contexts kw)
  = Return a ->
  exists r self' w',
    query self question top_k score_threshold kw w = (Return (r, self'), w')
    /\ r !! "answer" = Some (VStr a)
    /\ r !! "sources" = Some (VSources (extract_sources contexts))
    /\ r !! "num_contexts_used" = Some (VInt (len contexts))
    /\ length (extract_sources contexts) = length contexts
    /\ conversation_history self'
       = conversation_history self
         ++ [{| question := question; answer := Some a;
                sources := extract_sources contexts;
                num_contexts := len contexts |}].
Proof.
  intros H Hne Hc.
  destruct (query_cases self question top_k score_threshold kw w contexts H)
    as [[-> _]|[(_ & a' & Hc' & Hq)|(_ & e & Hc' & _)]]; [done| |congruence].
  assert (a' = a) as -> by congruence.
  eexists _, _, _. split; [exact Hq|].
  destruct (merged_response_fields question contexts
              (success_response a (default default_model (kw_model kw)) contexts))
    as (-> & -> & -> & _).
  destruct (success_response_fields a (default default_model (kw_model kw)) contexts)
    as (-> & -> & _ & -> & _).
  repeat (split; [reflexivity|]).
  split; [apply extract_sources_length|].
  simpl. by rewrite entry_of_success.
Qed.

(** The property above on an example. *)
Lemma answered_query_is_logged_as_answered_witness :
  (retrieve (retriever (example_rag groq_answering [chunk_a; chunk_b])) "When are invoices due?" 5 (1 # 2)%Q = Return [chunk_a; chunk_b])
  /\ ([chunk_a; chunk_b] <> [])
  /\ (client (llm_client (example_rag groq_answering [chunk_a; chunk_b])) (completion_calls world0) (query_request "When are invoices due?" [chunk_a; chunk_b] override_kwargs)
  = Return "Within 30 days [1].")
  /\ (exists r self' w',
    query (example_rag groq_answering [chunk_a; chunk_b]) "When are invoices due?" 5 (1 # 2)%Q override_kwargs world0 = (Return (r, self'), w')
    /\ r !! "answer" = Some (VStr "Within 30 days [1].")
    /\ r !! "sources" = Some (VSources (extract_sources [chunk_a; chunk_b]))
    /\ r !! "num_contexts_used" = Some (VInt (len [chunk_a; chunk_b]))
    /\ length (extract_sources [chunk_a; chunk_b]) = length [chunk_a; chunk_b]
    /\ conversation_history self'
       = conversation_history (example_rag groq_answering [chunk_a; chunk_b])
         ++ [{| question := "When are invoices due?"; answer := Some "Within 30 days [1].";
                sources := extract_sources [chunk_a; chunk_b];
                num_contexts := len [chunk_a; chunk_b] |}]).
Proof.
  assert (H1 : retrieve (retriever (example_rag groq_answering [chunk_a; chunk_b])) "When are invoices due?" 5 (1 # 2)%Q = Return [chunk_a; chunk_b])
    by (reflexivity).
  assert (H2 : [chunk_a; chunk_b] <> [])
    by (discriminate).
  assert (H3 : client (llm_client (example_rag groq_answering [chunk_a; chunk_b])) (completion_calls world0) (query_request "When are invoices due?" [chunk_a; chunk_b] override_kwargs)
  = Return "Within 30 days [1].")
    by (reflexivity).
  split; [exact H1|].
  split; [exact H2|].
  split; [exact H3|].
  exact (answered_query_is_logged_as_answered (example_rag groq_answering [chunk_a; chunk_b]) "When are invoices due?" 5 (1 # 2)%Q override_kwargs world0 [chunk_a; chunk_b] "Within 30 days [1]." H1 H2 H3).
Defined.

(** X17. When the service fails, [query] still returns and logs the exchange:
    the answer is the error text, the sources are empty and the count is 0
    although contexts were retrieved; the response keeps the contexts. *)
Theorem failed_generation_is_logged
    self question top_k score_threshold kw w contexts e :
  retrieve (retriever self) question top_k score_threshold = Return contexts ->
  contexts <> [] ->
  client (llm_client self) (completion_calls w) (query_request question contexts kw)
  = Raise e ->
  exists r self' w',
    query self question top_k score_threshold kw w = (Return (r, self'), w')
    /\ r !! "answer" = Some (VStr ("Error generating response: " +:+ exn_str e))
    /\ r !! "sources" = Some (VSources [])
    /\ r !! "num_contexts_used" = Some (VInt 0)
    /\ r !! "retrieved_contexts" = Some (VContexts contexts)
    /\ conversation_history self'
       = conversation_history self
         ++ [{| question := question;
                answer := Some ("Error generating response: " +:+ exn_str e);
                sources := []; num_contexts := 0 |}].
Proof.
  intros H Hne Hc.
  destruct (query_cases self question top_k score_threshold kw w contexts H)
    as [[-> _]|[(_ & a' & Hc' & _)|(_ & e' & Hc' & Hq)]]; [done|congruence|].
  assert (e' = e) as -> by congruence.
  eexists _, _, _. split; [exact Hq|].
  destruct (merged_response_fields question contexts
              (degraded_response ("Error generating response: " +:+ exn_str e)
                 (default default_model (kw_model kw))))
    as (-> & -> & -> & _).
  destruct (degraded_response_fields ("Error generating response: " +:+ exn_str e)
              (default default_model (kw_model kw)))
    as (-> & -> & _ & -> & _).
  repeat (split; [reflexivity|]).
  simpl. by rewrite entry_of_degraded.
Qed.

(** The property above on an example. *)
Lemma failed_generation_is_logged_witness :
  (retrieve (retriever (example_rag groq_failing [chunk_a; chunk_b])) "When are invoices due?" 5 (1 # 2)%Q = Return [chunk_a; chunk_b])
  /\ ([chunk_a; chunk_b] <> [])
  /\ (client (llm_client (example_rag groq_failing [chunk_a; chunk_b])) (completion_calls world0) (query_request "When are invoices due?" [chunk_a; chunk_b] override_kwargs)
  = Raise (Exception "rate limit exceeded"))
  /\ (exists r self' w',
    query (example_rag groq_failing [chunk_a; chunk_b]) "When are invoices due?" 5 (1 # 2)%Q override_kwargs world0 = (Return (r, self'), w')
    /\ r !! "answer" = Some (VStr ("Error generating response: " +:+ exn_str (Exception "rate limit exceeded")))
    /\ r !! "sources" = Some (VSources [])
    /\ r !! "num_contexts_used" = Some (VInt 0)
    /\ r !! "retrieved_contexts" = Some (VContexts [chunk_a; chunk_b])
    /\ conversation_history self'
       = conversation_history (example_rag groq_failing [chunk_a; chunk_b])
         ++ [{| question := "When are invoices due?";
                answer := Some ("Error generating response: " +:+ exn_str (Exception "rate limit exceeded"));
                sources := []; num_contexts := 0 |}]).
Proof.
  assert (H1 : retrieve (retriever (example_rag groq_failing [chunk_a; chunk_b])) "When are invoices due?" 5 (1 # 2)%Q = Return [chunk_a; chunk_b])
    by (reflexivity).
  assert (H2 : [chunk_a; chunk_b] <> [])
    by (discriminate).
  assert (H3 : client (llm_client (example_rag groq_failing [chunk_a; chunk_b])) (completion_calls world0) (query_request "When are invoices due?" [chunk_a; chunk_b] override_kwargs)
  = Raise (Exception "rate limit exceeded"))
    by (reflexivity).
  split; [exact H1|].
  split; [exact H2|].
  split; [exact H3|].
  exact (failed_generation_is_logged (example_rag groq_failing [chunk_a; chunk_b]) "When are invoices due?" 5 (1 # 2)%Q override_kwargs world0 [chunk_a; chunk_b] (Exception "rate limit exceeded") H1 H2 H3).
Defined.

(** X18. In every response of [query] the count equals the number of
    sources, and when every entry of the log has as many sources as its
    count says, this still holds after the call. *)
Theorem logged_count_is_number_of_sources
    self question top_k score_threshold kw w contexts :
  retrieve (retriever self) question top_k score_threshold = Return contexts ->
  Forall (fun e => num_contexts e = len (sources e)) (conversation_history self) ->
  exists r self' w' l,
    query self question top_k score_threshold kw w = (Return (r, self'), w')
    /\ r !! "sources" = Some (VSources l)
    /\ r !! "num_contexts_used" = Some (VInt (len l))
    /\ Forall (fun e => num_contexts e = len (sources e)) (conversation_history self').
Proof.
  intros H Hinv.
  destruct (query_cases self question top_k score_threshold kw w contexts H)
    as [[-> Hq]|[(Hne & a & Hc & Hq)|(Hne & e & Hc & Hq)]].
  - eexists _, _, _, _. split; [exact Hq|].
    destruct (no_contexts_response_fields question) as (_ & -> & -> & _).
    repeat (split; [reflexivity|]).
    simpl. rewrite entry_of_no_contexts. apply Forall_app. split; [done|].
    by repeat constructor.
  - eexists _, _, _, _. split; [exact Hq|].
    destruct (merged_response_fields question contexts
                (success_response a (default default_model (kw_model kw)) contexts))
      as (_ & -> & -> & _).
    destruct (success_response_fields a (default default_model (kw_model kw)) contexts)
      as (_ & -> & _ & -> & _).
    split; [reflexivity|].
    split; [unfold len; by rewrite extract_sources_length|].
    simpl. rewrite entry_of_success. apply Forall_app. split; [done|].
    repeat constructor. simpl. unfold len. by rewrite extract_sources_length.
  - eexists _, _, _, _. split; [exact Hq|].
    destruct (merged_response_fields question contexts
                (degraded_response ("Error generating response: " +:+ exn_str e)
                   (default default_model (kw_model kw))))
      as (_ & -> & -> & _).
    destruct (degraded_response_fields ("Error generating response: " +:+ exn_str e)
                (default default_model (kw_model kw)))
      as (_ & -> & _ & -> & _).
    repeat (split; [reflexivity|]).
    simpl. rewrite entry_of_degraded. apply Forall_app. split; [done|].
    by repeat constructor.
Qed.

(** The property above on an example. *)
Lemma logged_count_is_number_of_sources_witness :
  (retrieve (retriever (example_rag groq_answering [chunk_a; chunk_b])) "When are invoices due?" 5 (1 # 2)%Q = Return [chunk_a; chunk_b])
  /\ (Forall (fun e => num_contexts e = len (sources e)) (conversation_history (example_rag groq_answering [chunk_a; chunk_b])))
  /\ (exists r self' w' l,
    query (example_rag groq_answering [chunk_a; chunk_b]) "When are invoices due?" 5 (1 # 2)%Q override_kwargs world0 = (Return (r, self'), w')
    /\ r !! "sources" = Some (VSources l)
    /\ r !! "num_contexts_used" = Some (VInt (len l))
    /\ Forall (fun e => num_contexts e = len (sources e)) (conversation_history self')).
Proof.
  assert (H1 : retrieve (retriever (example_rag groq_answering [chunk_a; chunk_b])) "When are invoices due?" 5 (1 # 2)%Q = Return [chunk_a; chunk_b])
    by (reflexivity).
  assert (H2 : Forall (fun e => num_contexts e = len (sources e)) (conversation_history (example_rag groq_answering [chunk_a; chunk_b])))
    by (constructor).
  split; [exact H1|].
  split; [exact H2|].
  exact (logged_count_is_number_of_sources (example_rag groq_answering [chunk_a; chunk_b]) "When are invoices due?" 5 (1 # 2)%Q override_kwargs world0 [chunk_a; chunk_b] H1 H2).
Defined.

(** ** Session statistics *)

Lemma fold_left_add_from (l : list Z) (a : Z) :
  fold_left Z.add l a = a + fold_right Z.add 0 l.
Proof.
  revert a. induction l as [|x l IH]; intros a; simpl; [lia|].
  rewrite IH. lia.
Qed.

Lemma total_num_contexts_fold (history : list LogEntry) :
  fold_left Z.add (map num_contexts history) 0 = total_num_contexts history.
Proof.
  rewrite fold_left_add_from. unfold total_num_contexts.
  induction history as [|e h IH]; simpl in *; lia.
Qed.

Lemma total_num_contexts_snoc (history : list LogEntry) (e : LogEntry) :
  total_num_contexts (history ++ [e]) = total_num_contexts history + num_contexts e.
Proof.
  unfold total_num_contexts. induction history as [|x h IH]; simpl in *; lia.
Qed.

(** The totals of [get_stats]. *)
Lemma get_stats_spec self :
  exists avg,
    get_stats self
    = (len (conversation_history self),
       total_num_contexts (conversation_history self), avg)
    /\ (avg * inject_Z (len (conversation_history self))
        == inject_Z (total_num_contexts (conversation_history self)))%Q
    /\ (conversation_history self = [] -> avg = 0%Q).
Proof.
  unfold get_stats. destruct (conversation_history self) as [|e h] eqn:E.
  - exists 0%Q. repeat split. 
  - rewrite total_num_contexts_fold. eexists. split; [reflexivity|]. split; [|done].
    unfold len. field. intros H. unfold Qeq in H. simpl in H. lia.
Qed.



(** X20. A query that returns adds one to [total_queries] and the count of the
    response to [total_contexts_retrieved]. *)
Theorem query_advances_stats self question top_k score_threshold kw w contexts :
  retrieve (retriever self) question top_k score_threshold = Return contexts ->
  exists r self' w' n,
    query self question top_k score_threshold kw w = (Return (r, self'), w')
    /\ r !! "num_contexts_used" = Some (VInt n)
    /\ 0 <= n <= len contexts
    /\ fst (fst (get_stats self')) = fst (fst (get_stats self)) + 1
    /\ snd (fst (get_stats self')) = snd (fst (get_stats self)) + n.
Proof.
  intros H.
  assert (Hstats : forall s e,
            conversation_history s = conversation_history self ++ [e] ->
            fst (fst (get_stats s)) = fst (fst (get_stats self)) + 1
            /\ snd (fst (get_stats s)) = snd (fst (get_stats self)) + num_contexts e).
  { intros s e Hs.
    destruct (get_stats_spec s) as (a1 & -> & _).
    destruct (get_stats_spec self) as (a2 & -> & _). simpl.
    rewrite Hs, total_num_contexts_snoc. unfold len. rewrite length_app. simpl. lia. }
  destruct (query_cases self question top_k score_threshold kw w contexts H)
    as [[-> Hq]|[(Hne & a & Hc & Hq)|(Hne & e & Hc & Hq)]].
  - eexists _, _, _, 0. split; [exact Hq|].
    destruct (no_contexts_response_fields question) as (_ & _ & -> & _).
    split; [done|]. split; [done|].
    destruct (Hstats (append_history self
                        (entry_of question (no_contexts_response question)))
                _ eq_refl) as [H1 H2].
    rewrite entry_of_no_contexts in H2. simpl in H2. by split.
  - eexists _, _, _, (len contexts). split; [exact Hq|].
    destruct (merged_response_fields question contexts
                (success_response a (default default_model (kw_model kw)) contexts))
      as (_ & _ & -> & _).
    destruct (success_response_fields a (default default_model (kw_model kw)) contexts)
      as (_ & _ & _ & -> & _).
    split; [done|]. split; [unfold len; lia|].
    destruct (Hstats (append_history self
                        (entry_of question
                           (merged_response question contexts
                              (success_response a
                                 (default default_model (kw_model kw)) contexts))))
                _ eq_refl) as [H1 H2].
    rewrite entry_of_success in H2. simpl in H2. by split.
  - eexists _, _, _, 0. split; [exact Hq|].
    destruct (merged_response_fields question contexts
                (degraded_response ("Error generating response: " +:+ exn_str e)
                   (default default_model (kw_model kw))))
      as (_ & _ & -> & _).
    destruct (degraded_response_fields ("Error generating response: " +:+ exn_str e)
                (default default_model (kw_model kw)))
      as (_ & _ & _ & -> & _).
    split; [done|]. split; [unfold len; lia|].
    destruct (Hstats (append_history self
                        (entry_of question
                           (merged_response question contexts
                              (degraded_response
                                 ("Error generating response: " +:+ exn_str e)
                                 (default default_model (kw_model kw))))))
                _ eq_refl) as [H1 H2].
    rewrite entry_of_degraded in H2. simpl in H2. by split.
Qed.

(** The property above on an example. *)
Lemma query_advances_stats_witness :
  (retrieve (retriever (example_rag groq_answering [chunk_a; chunk_b])) "When are invoices due?" 5 (1 # 2)%Q = Return [chunk_a; chunk_b])
  /\ (exists r self' w' n,
    query (example_rag groq_answering [chunk_a; chunk_b]) "When are invoices due?" 5 (1 # 2)%Q override_kwargs world0 = (Return (r, self'), w')
    /\ r !! "num_contexts_used" = Some (VInt n)
    /\ 0 <= n <= len [chunk_a; chunk_b]
    /\ fst (fst (get_stats self')) = fst (fst (get_stats (example_rag groq_answering [chunk_a; chunk_b]))) + 1
    /\ snd (fst (get_stats self')) = snd (fst (get_stats (example_rag groq_answering [chunk_a; chunk_b]))) + n).
Proof.
  assert (H1 : retrieve (retriever (example_rag groq_answering [chunk_a; chunk_b])) "When are invoices due?" 5 (1 # 2)%Q = Return [chunk_a; chunk_b])
    by (reflexivity).
  split; [exact H1|].
  exact (query_advances_stats (example_rag groq_answering [chunk_a; chunk_b]) "When are invoices due?" 5 (1 # 2)%Q override_kwargs world0 [chunk_a; chunk_b] H1).
Defined.

(** ** Further properties of the synthesizer *)



(** X21. The sources of an answered request mirror the contexts: one per
    context, in order, with "Unknown", "N/A" and 0 where the metadata or
    the score is missing. *)
Theorem sources_mirror_contexts
    self query contexts model temperature max_tokens w a :
  contexts <> [] ->
  client self (completion_calls w)
    (request_of query contexts model temperature max_tokens) = Return a ->
  exists r w' srcs,
    generate_response self query contexts model temperature max_tokens w
    = (Return r, w')
    /\ r !! "answer" = Some (VStr a)
    /\ r !! "sources" = Some (VSources srcs)
    /\ length srcs = length contexts
    /\ forall i ctx, contexts !! i = Some ctx ->
         exists s, srcs !! i = Some s
           /\ src_id s = Z.of_nat i + 1
           /\ file s = default (PyStr "Unknown") (metadata ctx !! "source_file")
           /\ page s = default (PyStr "N/A") (metadata ctx !! "page")
           /\ similarity s = default 0%Q (similarity_score ctx).
Proof.
  intros Hne Hc. eexists _, _, _.
  split; [by apply generate_response_returns|].
  destruct (success_response_fields a model contexts) as (-> & -> & _).
  repeat (split; [reflexivity|]). split; [apply extract_sources_length|].
  intros i ctx Hi.
  assert (is_Some (extract_sources contexts !! i)) as [s Hs].
  { apply lookup_lt_is_Some. rewrite extract_sources_length.
    by apply lookup_lt_is_Some. }
  exists s. split; [done|].
  apply extract_sources_lookup in Hs as (ctx' & Hi' & Hid & Hf & Hp & Hsim).
  rewrite Hi in Hi'. injection Hi' as <-.
  repeat split; [done| | |].
  - rewrite Hf. unfold metadata_get. by destruct (metadata ctx !! "source_file").
  - rewrite Hp. unfold metadata_get. by destruct (metadata ctx !! "page").
  - rewrite Hsim. unfold similarity_get. by destruct (similarity_score ctx).
Qed.

(** The property above on an example. *)
Lemma sources_mirror_contexts_witness :
  ([chunk_a; chunk_b] <> [])
  /\ (client groq_answering (completion_calls world0)
    (request_of "When are invoices due?" [chunk_a; chunk_b] default_model (3 # 10)%Q 1000) = Return "Within 30 days [1].")
  /\ (exists r w' srcs,
    generate_response groq_answering "When are invoices due?" [chunk_a; chunk_b] default_model (3 # 10)%Q 1000 world0
    = (Return r, w')
    /\ r !! "answer" = Some (VStr "Within 30 days [1].")
    /\ r !! "sources" = Some (VSources srcs)
    /\ length srcs = length [chunk_a; chunk_b]
    /\ forall i ctx, [chunk_a; chunk_b] !! i = Some ctx ->
         exists s, srcs !! i = Some s
           /\ src_id s = Z.of_nat i + 1
           /\ file s = default (PyStr "Unknown") (metadata ctx !! "source_file")
           /\ page s = default (PyStr "N/A") (metadata ctx !! "page")
           /\ similarity s = default 0%Q (similarity_score ctx)).
Proof.
  assert (H1 : [chunk_a; chunk_b] <> [])
    by (discriminate).
  assert (H2 : client groq_answering (completion_calls world0)
    (request_of "When are invoices due?" [chunk_a; chunk_b] default_model (3 # 10)%Q 1000) = Return "Within 30 days [1].")
    by (reflexivity).
  split; [exact H1|].
  split; [exact H2|].
  exact (sources_mirror_contexts groq_answering "When are invoices due?" [chunk_a; chunk_b] default_model (3 # 10)%Q 1000 world0 "Within 30 days [1]." H1 H2).
Defined.



(** ** Construction of the client *)

(** X23. A non-empty key given to the constructor is used, else the one of the
    environment; with neither, the constructor raises [ValueError] before
    the SDK is called; a failure of the SDK's constructor is raised
    again. *)
Theorem client_needs_a_key key environ Groq :
  (forall k, key = Some k -> k <> "" ->
     GroqClient_init key environ Groq
     = match Groq k with
       | Return service => Built {| api_key := k; client := service |}
       | Raise e => Reraised e
       end)
  /\ (forall k, key = None \/ key = Some "" ->
        environ !! "GROQ_API_KEY" = Some k -> k <> "" ->
        GroqClient_init key environ Groq
        = match Groq k with
          | Return service => Built {| api_key := k; client := service |}
          | Raise e => Reraised e
          end)
  /\ (key = None \/ key = Some "" ->
      environ !! "GROQ_API_KEY" = None \/ environ !! "GROQ_API_KEY" = Some "" ->
      GroqClient_init key environ Groq = ValueError api_key_missing_message).
Proof.
  unfold GroqClient_init. split; [|split].
  - intros k -> Hk. destruct k; [done|reflexivity].
  - intros k [-> | ->] -> Hk; (destruct k; [done|reflexivity]).
  - intros [-> | ->] [-> | ->]; reflexivity.
Qed.

(** The property above on an example: the key of the environment is used
    when the given one is empty, and without any key the SDK is not
    reached. *)
Lemma client_needs_a_key_witness :
  GroqClient_init (Some "") (<["GROQ_API_KEY" := "gsk-env"]> ∅)
    (fun k => Return (fun _ _ => Return k))
  = Built {| api_key := "gsk-env"; client := fun _ _ => Return "gsk-env" |}
  /\ GroqClient_init None ∅ (fun _ => Raise (Exception "unreachable"))
     = ValueError api_key_missing_message.
Proof.
  split.
  - apply (proj1 (proj2 (client_needs_a_key (Some "")
                           (<["GROQ_API_KEY" := "gsk-env"]> ∅)
                           (fun k => Return (fun _ _ => Return k)))) "gsk-env");
      [right; reflexivity | reflexivity | discriminate].
  - apply (proj2 (proj2 (client_needs_a_key None ∅
                           (fun _ => Raise (Exception "unreachable")))));
      left; reflexivity.
Defined.
